(** * Cross-signing trust engine and resilient session store

    A shallow embedding of
    - [src/matrix/verification/CrossSigning.ts] and
    - [src/matrix/storage/idb/stores/SessionStore.ts]
    together with the properties their specification states about them.

    JavaScript objects used as dictionaries are finite maps ([gmap]) with
    string keys, arrays are lists, [undefined] is [None].  Asynchronous
    methods are run to completion one at a time: the engine is single-writer
    per identity, so an [await] is a sequencing point and nothing more. *)

From Stdlib Require Import String Ascii Bool Arith Lia.
From Stdlib Require Strings.Byte.
From stdpp Require Import base option list gmap strings fin_maps.

(** ** JavaScript string primitives used by the sources *)
Module JS.
Local Open Scope string_scope.

(** [s.startsWith(p)] *)
Definition startsWith (p s : string) : bool := String.prefix p s.
#[global] Arguments startsWith : simpl never.

(** [s.substr(n)]: the suffix of [s] from index [n] on. *)
Fixpoint substr (n : nat) (s : string) : string :=
  match n, s with
  | 0, _ => s
  | S _, EmptyString => EmptyString
  | S n', String _ s' => substr n' s'
  end.

(** Truthiness of a string: only the empty string is falsy. *)
Definition truthy (s : string) : bool :=
  match s with EmptyString => false | String _ _ => true end.

(** Truthiness of [string | undefined]. *)
Definition truthy_opt (o : option string) : bool :=
  match o with Some s => truthy s | None => false end.

End JS.

(** ** Cross-signing: data model and operations ([CrossSigning.ts]) *)
Module CrossSigning.
Local Open Scope string_scope.

(** [enum KeyUsage], with the string each member stands for. *)
Inductive KeyUsage := Master | SelfSigning | UserSigning.

Definition KeyUsage_str (u : KeyUsage) : string :=
  match u with
  | Master => "master"
  | SelfSigning => "self_signing"
  | UserSigning => "user_signing"
  end.

(** [signatures]: signer user id, then signer key id, then the signature. *)
Abbreviation Signatures := (gmap string (gmap string string)).

(** [type CrossSigningKey = SignedValue & {user_id, usage, keys}].
    [signatures] is optional in [SignedValue] and is removed by [delete]. *)
Record CrossSigningKey := mkCrossSigningKey {
  user_id : string;
  usage : list string;
  keys : gmap string string;
  signatures : option Signatures
}.

(** Modelled from the spec: the type [DeviceKey] of [e2ee/common], a
    per-device identity bundle with the owning user id, the device id, the
    device's public keys and a [signatures] map of the same shape. *)
Record DeviceKey := mkDeviceKey {
  dk_user_id : string;
  dk_device_id : string;
  dk_keys : gmap string string;
  dk_signatures : option Signatures
}.

(** The union [DeviceKey | CrossSigningKey] taken by signing and
    verification. *)
Inductive SignedObject :=
| ODevice (dk : DeviceKey)
| OCross (ck : CrossSigningKey).

(** [UserTrust], in the order of the enum. *)
Inductive UserTrust :=
| Trusted
| UserNotSigned
| UserSignatureMismatch
| UserDeviceNotSigned
| UserDeviceSignatureMismatch
| UserSetupError
| OwnSetupError.

Inductive MSKVerification :=
| NoPrivKey
| NoPubKey
| DerivedPubKeyMismatch
| MSKValid.

(** Modelled from the spec: the enum [SignatureVerification] of
    [e2ee/common], the tri-state result of checking one signature. *)
Inductive SignatureVerification := Valid | Invalid | NotSigned.

(** Modelled from the spec: the enum [VerificationEventType] of
    [SAS/channel/types].  The message handler tests for the request and the
    start type only; every other message type is [OtherType]. *)
Inductive VerificationEventType :=
| Request
| Start
| OtherType (name : string).

(** Modelled from the spec: an inbound unencrypted to-device event,
    [{type, sender, content: {transaction_id}}]. *)
Record UnencryptedEvent := mkEvent {
  ev_type : VerificationEventType;
  sender : string;
  transaction_id : string
}.

(** Modelled from the spec: the class [SASVerification] of
    [SAS/SASVerification], as far as the engine observes it: the user the
    session was begun with, the message it was begun from, its [channel.id]
    and its [finished] flag. *)
Record SASVerification := mkSAS {
  otherUserId : string;
  startingMessage : option UnencryptedEvent;
  channel_id : string;
  finished : bool
}.

(** Payload of [uploadSignatures]:
    [{ [userId]: { [keyOrDeviceId]: signedObject } }]. *)
Abbreviation SignaturePayload := (gmap string (gmap string SignedObject)).

(** Everything the engine does to its collaborators, in program order. *)
Inductive Effect :=
| ReadSecret (name : string)
| QueryCrossSigningKey (userId : string) (u : KeyUsage) (hsApi : bool)
| QueryDevice (userId deviceId : string)
| QueryDevices (userIds : list string)
| Sign (signer : string) (signed : SignedObject)
| UploadSignatures (payload : SignaturePayload)
| StartSAS (ref : nat).

(** The calls that are handed the homeserver API. *)
Definition isNetworkCall (e : Effect) : bool :=
  match e with
  | QueryCrossSigningKey _ _ hsApi => hsApi
  | QueryDevice _ _ | QueryDevices _ | UploadSignatures _ => true
  | ReadSecret _ | Sign _ _ | StartSAS _ => false
  end.

Definition isSigning (e : Effect) : bool :=
  match e with Sign _ _ => true | _ => false end.

(** The mutable fields of a [CrossSigning] instance.  A [SASVerification]
    is an object shared with the code that drives it, so the instance holds
    a reference into [sasHeap], the objects created so far. *)
Record State := mkState {
  _isMasterKeyTrusted : bool;
  sasVerificationInProgress : option nat;
  sasHeap : list SASVerification
}.

(** The field initialisers of the class. *)
Definition initialState : State := mkState false None [].

(** The readonly fields and external collaborators of an instance: secret
    storage, base64 decoding, Olm, the device tracker, the account and the
    homeserver API.  [getCrossSigningKeyForUser]'s last argument says
    whether the homeserver API was passed.  [verifyEd25519Signature]
    ([e2ee/common]) and [pkSign] ([verification/common]) are helpers that are
    not part of these sources and are parameters as well: [pkSign] gives the
    [signatures] it leaves on the object it signs in place.
    [init_with_seed] gives the public key Olm derives from a seed, or
    [None] when Olm throws on the seed (one of the wrong length).
    [uploadSignatures_ok] says whether the upload's [response()] resolves,
    [newChannelId] is the id of the [ToDeviceChannel] made for a user from a
    starting message.  The secret storage, the device tracker and [pkSign]
    are taken by the answers they give: a promise of theirs that rejects
    makes the method reject at that point, having done what it did until
    then. *)
Class Collaborators := {
  ownUserId : string;
  deviceId : string;
  readSecret : string → option string;
  base64_decode : string → list Byte.byte;
  init_with_seed : list Byte.byte → option string;
  getCrossSigningKeyForUser :
    string → KeyUsage → bool → option CrossSigningKey;
  deviceForId : string → string → option DeviceKey;
  devicesForUsers : list string → list DeviceKey;
  getUnsignedDeviceKey : DeviceKey;
  verifyEd25519Signature :
    string → string → string → SignedObject → SignatureVerification;
  pkSign : SignedObject → list Byte.byte → string → string → Signatures;
  uploadSignatures_ok : SignaturePayload → bool;
  newChannelId : string → option UnencryptedEvent → string
}.

(** *** The monad of engine methods: instance state, a log of effects, and
    rejection of the returned promise. *)
Inductive Completion (A : Type) :=
| Returned (a : A)
| Rejected.
Arguments Returned {A} a.
Arguments Rejected {A}.

Definition M (A : Type) : Type := State → Completion A * State * list Effect.

#[global] Instance M_ret : MRet M := λ A a st, (Returned a, st, []).

#[global] Instance M_bind : MBind M := λ A B f m st,
  match m st with
  | (Returned a, st', t) =>
      match f a st' with (r, st'', t') => (r, st'', (t ++ t')%list) end
  | (Rejected, st', t) => (Rejected, st', t)
  end.

Definition perform (e : Effect) : M unit := λ st, (Returned tt, st, [e]).
Definition reject {A} : M A := λ st, (Rejected, st, []).
Definition getState : M State := λ st, (Returned st, st, []).
Definition setState (st : State) : M unit := λ _, (Returned tt, st, []).

Definition result {A} (r : Completion A * State * list Effect) := r.1.1.
Definition stateAfter {A} (r : Completion A * State * list Effect) := r.1.2.
Definition effects {A} (r : Completion A * State * list Effect) := r.2.

#[global] Instance KeyUsage_eq_dec : EqDecision KeyUsage.
Proof. solve_decision. Defined.
#[global] Instance UserTrust_eq_dec : EqDecision UserTrust.
Proof. solve_decision. Defined.
#[global] Instance MSKVerification_eq_dec : EqDecision MSKVerification.
Proof. solve_decision. Defined.
#[global] Instance SignatureVerification_eq_dec :
  EqDecision SignatureVerification.
Proof. solve_decision. Defined.
#[global] Instance VerificationEventType_eq_dec :
  EqDecision VerificationEventType.
Proof. solve_decision. Defined.

(** *** Key normalisation *)

(** The [Array.isArray] guard of the source is vacuous on the declared type
    [ReadonlyArray<string>]; what remains is the length test. *)
Definition getKeyUsage (keyInfo : CrossSigningKey) : option KeyUsage :=
  match usage keyInfo with
  | [u] =>
      if bool_decide (u ≠ KeyUsage_str Master)
         && bool_decide (u ≠ KeyUsage_str SelfSigning)
         && bool_decide (u ≠ KeyUsage_str UserSigning)
      then None
      else if bool_decide (u = KeyUsage_str Master) then Some Master
      else if bool_decide (u = KeyUsage_str SelfSigning) then Some SelfSigning
      else Some UserSigning
  | _ => None
  end.

Definition algorithm : string := "ed25519".
Definition prefix : string := algorithm +:+ ":".

(** [Object.keys(keyInfo.keys).filter(keyId => keyId.startsWith(prefix))] *)
Definition ed25519KeyIds (keyInfo : CrossSigningKey) : list string :=
  List.filter (JS.startsWith prefix) (map fst (map_to_list (keys keyInfo))).

Definition getKeyEd25519Key (keyInfo : CrossSigningKey) : option string :=
  match ed25519KeyIds keyInfo with
  | [keyId] => keys keyInfo !! keyId
  | _ => None
  end.

Definition getKeyUserId (keyInfo : CrossSigningKey) : option string :=
  Some (user_id keyInfo).

(** *** Methods of the class *)
Section Engine.
Context `{Collaborators}.

Definition setMasterKeyTrusted (b : bool) : M unit :=
  st ← getState;
  setState (mkState b (sasVerificationInProgress st) (sasHeap st)).

(** [getSigningKey]: an absent or empty secret gives [undefined]; a
    [Uint8Array] is an object and so always truthy for the callers. *)
Definition getSigningKey (u : KeyUsage) : M (option (list Byte.byte)) :=
  let name := "m.cross_signing." +:+ KeyUsage_str u in
  perform (ReadSecret name);;
  match readSecret name with
  | Some seedStr =>
      if JS.truthy seedStr then mret (Some (base64_decode seedStr))
      else mret None
  | None => mret None
  end.

Definition queryCrossSigningKey (userId : string) (u : KeyUsage)
    (hsApi : bool) : M (option CrossSigningKey) :=
  perform (QueryCrossSigningKey userId u hsApi);;
  mret (getCrossSigningKeyForUser userId u hsApi).

(** [verifyMSKFrom4S]: the derivation sits in a [try]/[finally] without a
    [catch], so when [init_with_seed] throws the call rejects, before the
    published key is looked up and with the trust flag as it was. *)
Definition verifyMSKFrom4S (allowNetwork : bool) : M MSKVerification :=
  privateMasterKey ← getSigningKey Master;
  match privateMasterKey with
  | None => mret NoPrivKey
  | Some seed =>
      match init_with_seed seed with
      | None => reject
      | Some derivedPublicKey =>
          publishedMasterKey ←
            queryCrossSigningKey ownUserId Master allowNetwork;
          match publishedMasterKey with
          | None => mret NoPubKey
          | Some pmk =>
              let publisedEd25519Key := getKeyEd25519Key pmk in
              let trusted :=
                JS.truthy_opt publisedEd25519Key
                && bool_decide (publisedEd25519Key = Some derivedPublicKey) in
              setMasterKeyTrusted trusted;;
              if negb trusted then mret DerivedPubKeyMismatch
              else mret MSKValid
          end
      end
  end.

Definition load : M bool :=
  verification ← verifyMSKFrom4S false;
  mret (bool_decide (verification ≠ NoPrivKey)).

Definition start : M unit :=
  st ← getState;
  if negb (_isMasterKeyTrusted st) then verifyMSKFrom4S true;; mret tt
  else mret tt.

(** The object [sasVerificationInProgress] refers to, if any. *)
Definition sasInProgress (st : State) : option SASVerification :=
  ref ← sasVerificationInProgress st; sasHeap st !! ref.

(** [startVerification]: a [SASVerification] is constructed unfinished,
    on a fresh [ToDeviceChannel] made from the starting message. *)
Definition startVerification (userId : string)
    (startingMsg : option UnencryptedEvent) : M (option nat) :=
  st ← getState;
  if match sasInProgress st with
     | Some sas => negb (finished sas)
     | None => false
     end
  then mret None
  else
    let channel := newChannelId userId startingMsg in
    let ref := length (sasHeap st) in
    setState (mkState (_isMasterKeyTrusted st) (Some ref)
                (sasHeap st ++ [mkSAS userId startingMsg channel false])%list);;
    mret (Some ref).

(** The guard at the head of the ["message"] handler. *)
Definition ignoresMessage (st : State) (ev : UnencryptedEvent) : bool :=
  match sasInProgress st with
  | Some sas =>
      negb (finished sas) || bool_decide (channel_id sas = transaction_id ev)
  | None => false
  end.

(** The ["message"] handler installed by the constructor. *)
Definition onMessage (ev : UnencryptedEvent) : M unit :=
  st ← getState;
  if ignoresMessage st ev then mret tt
  else if bool_decide (ev_type ev = Request)
          || bool_decide (ev_type ev = Start)
  then
    sas ← startVerification (sender ev) (Some ev);
    match sas with
    | Some ref => perform (StartSAS ref)
    | None => mret tt
    end
  else mret tt.

(** [signKey]: [pkSign] writes the [signatures] of the object it is
    given. *)
Definition signKey (keyToSign : SignedObject) (signingKey : list Byte.byte)
    : SignedObject :=
  let sigs := pkSign keyToSign signingKey ownUserId "" in
  match keyToSign with
  | ODevice dk =>
      ODevice (mkDeviceKey (dk_user_id dk) (dk_device_id dk) (dk_keys dk)
                 (Some sigs))
  | OCross ck =>
      OCross (mkCrossSigningKey (user_id ck) (usage ck) (keys ck) (Some sigs))
  end.

Definition uploadSignatures (payload : SignaturePayload) : M unit :=
  perform (UploadSignatures payload);;
  if uploadSignatures_ok payload then mret tt else reject.

Definition hasValidSignatureFrom (key : SignedObject)
    (signingKey : CrossSigningKey) : SignatureVerification :=
  match getKeyEd25519Key signingKey with
  | Some pubKey =>
      if JS.truthy pubKey
      then verifyEd25519Signature (user_id signingKey) pubKey pubKey key
      else NotSigned
  | None => NotSigned
  end.

Definition signDeviceKey (keyToSign : DeviceKey) : M (option SignedObject) :=
  signingKey ← getSigningKey SelfSigning;
  match signingKey with
  | None => mret None
  | Some sk =>
      let signed := signKey (ODevice keyToSign) sk in
      perform (Sign ownUserId signed);;
      let payload : SignaturePayload :=
        {[ dk_user_id keyToSign := {[ dk_device_id keyToSign := signed ]} ]} in
      uploadSignatures payload;;
      mret (Some signed)
  end.

Definition signOwnDevice : M (option SignedObject) :=
  st ← getState;
  if negb (_isMasterKeyTrusted st) then mret None
  else signDeviceKey getUnsignedDeviceKey.

Definition signDevice (deviceId : string) : M (option SignedObject) :=
  st ← getState;
  if negb (_isMasterKeyTrusted st) then mret None
  else
    perform (QueryDevice ownUserId deviceId);;
    match deviceForId ownUserId deviceId with
    | None => mret None
    | Some keyToSign =>
        signDeviceKey
          (mkDeviceKey (dk_user_id keyToSign) (dk_device_id keyToSign)
             (dk_keys keyToSign) None)
    end.

Definition signUser (userId : string) : M (option SignedObject) :=
  st ← getState;
  if negb (_isMasterKeyTrusted st) then mret None
  else if bool_decide (userId = ownUserId) then mret None
  else
    keyToSign ← queryCrossSigningKey userId Master true;
    match keyToSign with
    | None => mret None
    | Some keyToSign =>
        signingKey ← getSigningKey UserSigning;
        match signingKey with
        | None => mret None
        | Some sk =>
            let stripped :=
              mkCrossSigningKey (user_id keyToSign) (usage keyToSign)
                (keys keyToSign) None in
            let signed := signKey (OCross stripped) sk in
            perform (Sign ownUserId signed);;
            let payload : SignaturePayload :=
              {[ user_id stripped :=
                   {[ default "undefined" (getKeyEd25519Key stripped)
                      := signed ]} ]} in
            uploadSignatures payload;;
            mret (Some signed)
        end
    end.

(** The callback of [theirDeviceKeys.reduce]. *)
Definition lowerVerification (theirSSK : CrossSigningKey)
    (lowest : SignatureVerification) (dk : DeviceKey)
    : SignatureVerification :=
  let verification := hasValidSignatureFrom (ODevice dk) theirSSK in
  if bool_decide (lowest = Invalid) || bool_decide (verification = Invalid)
  then Invalid
  else if bool_decide (lowest = NotSigned)
          || bool_decide (verification = NotSigned)
  then NotSigned
  else if bool_decide (lowest = Valid) || bool_decide (verification = Valid)
  then Valid
  else Invalid.

Definition lowestDeviceVerification (theirSSK : CrossSigningKey)
    (theirDeviceKeys : list DeviceKey) : SignatureVerification :=
  fold_left (lowerVerification theirSSK) theirDeviceKeys Valid.

Definition getUserTrust (userId : string) : M UserTrust :=
  st ← getState;
  if negb (_isMasterKeyTrusted st) then mret OwnSetupError
  else
    ourMSK ← queryCrossSigningKey ownUserId Master true;
    match ourMSK with
    | None => mret OwnSetupError
    | Some ourMSK =>
    ourUSK ← queryCrossSigningKey ownUserId UserSigning true;
    match ourUSK with
    | None => mret OwnSetupError
    | Some ourUSK =>
    let ourUSKVerification := hasValidSignatureFrom (OCross ourUSK) ourMSK in
    if bool_decide (ourUSKVerification ≠ Valid) then mret OwnSetupError
    else
    theirMSK ← queryCrossSigningKey userId Master true;
    match theirMSK with
    | None => mret UserNotSigned
    | Some theirMSK =>
    let theirMSKVerification :=
      hasValidSignatureFrom (OCross theirMSK) ourUSK in
    if bool_decide (theirMSKVerification ≠ Valid) then
      if bool_decide (theirMSKVerification = NotSigned)
      then mret UserNotSigned
      else mret UserSignatureMismatch
    else
    theirSSK ← queryCrossSigningKey userId SelfSigning true;
    match theirSSK with
    | None => mret UserSetupError
    | Some theirSSK =>
    let theirSSKVerification :=
      hasValidSignatureFrom (OCross theirSSK) theirMSK in
    if bool_decide (theirSSKVerification ≠ Valid) then mret UserSetupError
    else
    perform (QueryDevices [userId]);;
    let theirDeviceKeys := devicesForUsers [userId] in
    let lowest := lowestDeviceVerification theirSSK theirDeviceKeys in
    if bool_decide (lowest ≠ Valid) then
      if bool_decide (lowest = NotSigned) then mret UserDeviceNotSigned
      else mret UserDeviceSignatureMismatch
    else mret Trusted
    end end end end.

End Engine.

(** *** The life of an instance *)
Section Lifecycle.
Context `{Collaborators}.

(** A [SASVerification] finishes by its own protocol, outside this
    class; the class only reads the flag. *)
Definition finishSession (ref : nat) (st : State) : State :=
  mkState (_isMasterKeyTrusted st) (sasVerificationInProgress st)
    (alter (λ sas, mkSAS (otherUserId sas) (startingMessage sas)
                     (channel_id sas) true) ref (sasHeap st)).

(** One step: an inbound message, a call of a public method, or a
    session finishing.  Sessions are created by this class only, and a
    finished session stays finished. *)
Inductive Step : State → State → Prop :=
| step_message ev st : Step st (stateAfter (onMessage ev st))
| step_startVerification userId msg st :
    Step st (stateAfter (startVerification userId msg st))
| step_finish ref st : Step st (finishSession ref st)
| step_load st : Step st (stateAfter (load st))
| step_start st : Step st (stateAfter (start st))
| step_signOwnDevice st : Step st (stateAfter (signOwnDevice st))
| step_signDevice device st : Step st (stateAfter (signDevice device st))
| step_signUser userId st : Step st (stateAfter (signUser userId st))
| step_getUserTrust userId st : Step st (stateAfter (getUserTrust userId st)).

(** The states an instance can be in, from its construction on. *)
Inductive Reachable : State → Prop :=
| reachable_init : Reachable initialState
| reachable_step st st' : Reachable st → Step st st' → Reachable st'.

(** Every unfinished session is the one in progress. *)
Definition soleUnfinished (st : State) : Prop :=
  ∀ ref sas, sasHeap st !! ref = Some sas → finished sas = false →
             sasVerificationInProgress st = Some ref.
End Lifecycle.

End CrossSigning.

(** ** The resilient session store ([SessionStore.ts]) *)
Module SessionStore.
Local Open Scope string_scope.

(** Modelled from the spec: the secondary medium ([IDOMStorage] of
    [idb/types]), an ordered, enumerable string-keyed store with [length],
    [key(i)], [getItem], [setItem] and [removeItem].  The entries are kept in
    the order [key(i)] enumerates them; [setItem] overwrites in place or
    appends, and always succeeds. *)
Abbreviation DOMStorage := (list (string * string)).

Definition ls_length (ls : DOMStorage) : nat := length ls.

Definition ls_key (ls : DOMStorage) (i : nat) : option string :=
  fst <$> ls !! i.

Fixpoint getItem (ls : DOMStorage) (k : string) : option string :=
  match ls with
  | [] => None
  | (k', v) :: rest => if bool_decide (k' = k) then Some v else getItem rest k
  end.

Fixpoint setItem (ls : DOMStorage) (k v : string) : DOMStorage :=
  match ls with
  | [] => [(k, v)]
  | (k', v') :: rest =>
      if bool_decide (k' = k) then (k, v) :: rest
      else (k', v') :: setItem rest k v
  end.

Definition removeItem (ls : DOMStorage) (k : string) : DOMStorage :=
  List.filter (λ e, negb (bool_decide (e.1 = k))) ls.

(** What the store is built on: the name of the database behind the
    primary [Store<SessionEntry>], the constant [SESSION_E2EE_KEY_PREFIX]
    of [e2ee/common.js], and [stringify]/[parse] of [utils/typedJSON],
    where [None] stands for a thrown exception. *)
Class Host (V : Type) := {
  databaseName : string;
  SESSION_E2EE_KEY_PREFIX : string;
  stringify : V → option string;
  parse : string → option V
}.

Section Store.
Context {V : Type} `{Host V}.

(** The two media of a [SessionStore]: the primary store, keyed by
    [entry.key] and holding [entry.value], and [localStorage]. *)
Record Media := mkMedia {
  _sessionStore : gmap string V;
  _localStorage : DOMStorage
}.

(** Modelled from the spec: the operations of the primary
    [Store<SessionEntry>] ([idb/Store]) the class calls.  [getKey] returns
    the key when an entry exists under it, [put] upserts. *)
Definition Store_getKey (store : gmap string V) (k : string) : option string :=
  match store !! k with Some _ => Some k | None => None end.
Definition Store_put (store : gmap string V) (k : string) (v : V) :=
  <[k := v]> store.
(** [add] inserts only; on an existing key the request fails and the
    entry is kept. *)
Definition Store_add (store : gmap string V) (k : string) (v : V) :=
  match store !! k with Some _ => store | None => <[k := v]> store end.
Definition Store_delete (store : gmap string V) (k : string) :=
  delete k store.

Definition get (m : Media) (key : string) : option V :=
  _sessionStore m !! key.

Definition lsKeyFor (key : string) : string :=
  databaseName +:+ ".session." +:+ key.

(** [_writeKeyToLocalStorage]: a failure is caught and logged. *)
Definition _writeKeyToLocalStorage (ls : DOMStorage) (key : string)
    (value : V) : DOMStorage :=
  match stringify value with
  | Some lsValue => setItem ls (lsKeyFor key) lsValue
  | None => ls
  end.

Definition writeE2EEIdentityToLocalStorage (m : Media) : Media :=
  mkMedia (_sessionStore m)
    (fold_left
       (λ ls e, if JS.startsWith SESSION_E2EE_KEY_PREFIX e.1
                then _writeKeyToLocalStorage ls e.1 e.2 else ls)
       (map_to_list (_sessionStore m)) (_localStorage m)).

Definition lsPrefix : string := databaseName +:+ ".session.".
Definition prefix : string := lsPrefix +:+ SESSION_E2EE_KEY_PREFIX.

(** The [for] loop of [tryRestoreE2EEIdentityFromLocalStorage], with [n]
    iterations left from index [i].  The second component is the value
    returned, or [None] when the loop threw ([parse], or a [null] that
    the source asserts away). *)
Fixpoint restoreLoop (ls : DOMStorage) (n i : nat)
    (store : gmap string V) (success : bool) : gmap string V * option bool :=
  match n with
  | 0 => (store, Some success)
  | S n' =>
      match ls_key ls i with
      | None => (store, None)
      | Some lsKey =>
          if JS.startsWith prefix lsKey then
            match getItem ls lsKey ≫= parse with
            | None => (store, None)
            | Some value =>
                let key := JS.substr (String.length lsPrefix) lsKey in
                let hasKey :=
                  bool_decide (Store_getKey store key = Some key) in
                if negb hasKey
                then restoreLoop ls n' (S i) (Store_put store key value) true
                else restoreLoop ls n' (S i) store success
            end
          else restoreLoop ls n' (S i) store success
      end
  end.

Definition tryRestoreE2EEIdentityFromLocalStorage (m : Media)
    : Media * option bool :=
  let r := restoreLoop (_localStorage m) (ls_length (_localStorage m)) 0
             (_sessionStore m) false in
  (mkMedia r.1 (_localStorage m), r.2).

Definition set (m : Media) (key : string) (value : V) : Media :=
  let ls :=
    if JS.startsWith SESSION_E2EE_KEY_PREFIX key
    then _writeKeyToLocalStorage (_localStorage m) key value
    else _localStorage m in
  mkMedia (Store_put (_sessionStore m) key value) ls.

Definition add (m : Media) (key : string) (value : V) : Media :=
  let ls :=
    if JS.startsWith SESSION_E2EE_KEY_PREFIX key
    then _writeKeyToLocalStorage (_localStorage m) key value
    else _localStorage m in
  mkMedia (Store_add (_sessionStore m) key value) ls.

Definition remove (m : Media) (key : string) : Media :=
  let ls :=
    if JS.startsWith SESSION_E2EE_KEY_PREFIX key
    then removeItem (_localStorage m) (databaseName +:+ key)
    else _localStorage m in
  mkMedia (Store_delete (_sessionStore m) key) ls.

End Store.

Arguments Media V : clear implicits.

End SessionStore.

(** ** Counting and worst-case definitions the specification speaks of *)
Module Spec.
Import CrossSigning.

(** The number of entries of [keys] whose key id has the ed25519 prefix. *)
Definition ed25519EntryCount (keyInfo : CrossSigningKey) : nat :=
  size (filter (λ kv : string * string, JS.startsWith prefix kv.1 = true)
          (keys keyInfo)).

(** The worst verdict under the precedence [Invalid > NotSigned > Valid]:
    any [Invalid] dominates, otherwise any [NotSigned], otherwise [Valid]. *)
Definition worstVerdict (vs : list SignatureVerification)
    : SignatureVerification :=
  if decide (Invalid ∈ vs) then Invalid
  else if decide (NotSigned ∈ vs) then NotSigned
  else Valid.

Definition trustOfWorst (w : SignatureVerification) : UserTrust :=
  match w with
  | Invalid => UserDeviceSignatureMismatch
  | NotSigned => UserDeviceNotSigned
  | Valid => Trusted
  end.

(** The worse of two verdicts. *)
Definition worse (a b : SignatureVerification) : SignatureVerification :=
  match a, b with
  | Invalid, _ | _, Invalid => Invalid
  | NotSigned, _ | _, NotSigned => NotSigned
  | Valid, Valid => Valid
  end.

Section Chain.
Context `{Collaborators}.

(** Steps 1 to 4 of [getUserTrust] pass: the own master key is trusted,
    the own master and user-signing keys are published, and the latter
    is validly signed by the former. *)
Definition ownSideVerified (st : State) (ourUSK : CrossSigningKey) : Prop :=
  _isMasterKeyTrusted st = true
  ∧ ∃ ourMSK,
      getCrossSigningKeyForUser ownUserId Master true = Some ourMSK
      ∧ getCrossSigningKeyForUser ownUserId UserSigning true = Some ourUSK
      ∧ hasValidSignatureFrom (OCross ourUSK) ourMSK = Valid.

(** Steps 5 to 8 pass: the subject's master key is published and validly
    signed by our user-signing key, and their self-signing key is
    published and validly signed by their master key. *)
Definition subjectKeysVerified (userId : string)
    (ourUSK theirSSK : CrossSigningKey) : Prop :=
  ∃ theirMSK,
    getCrossSigningKeyForUser userId Master true = Some theirMSK
    ∧ hasValidSignatureFrom (OCross theirMSK) ourUSK = Valid
    ∧ getCrossSigningKeyForUser userId SelfSigning true = Some theirSSK
    ∧ hasValidSignatureFrom (OCross theirSSK) theirMSK = Valid.

(** A method that assigns no field leaves the instance as it was. *)
Definition readOnly {A} (m : M A) : Prop := ∀ st, stateAfter (m st) = st.

(** Whether [startVerification] declines: a session is in progress and
    has not finished. *)
Definition declines (st : State) : bool :=
  match sasInProgress st with
  | Some sas => negb (finished sas)
  | None => false
  end.

(** The session a message or call begins: bound to the user and the
    starting message, on a fresh channel, unfinished. *)
Definition sessionBegunWith (userId : string)
    (msg : option UnencryptedEvent) : SASVerification :=
  mkSAS userId msg (newChannelId userId msg) false.

(** The verdicts of step 9, one per device of the subject. *)
Definition deviceVerdicts (userId : string) (theirSSK : CrossSigningKey)
    : list SignatureVerification :=
  map (λ dk, hasValidSignatureFrom (ODevice dk) theirSSK)
    (devicesForUsers [userId]).
End Chain.

End Spec.

(** ** A concrete deployment, to run the definitions on *)
Module Demo.
Local Open Scope string_scope.
Import CrossSigning.

Definition me : string := "@me:hs".
Definition alice : string := "@alice:hs".

Definition signatureBy (pub : string) : string := "sig-by-" +:+ pub.

Definition signedBy (signer pub : string) : option Signatures :=
  Some {[ signer := {[ "ed25519:" +:+ pub := signatureBy pub ]} ]}.

(** A stand-in for the Ed25519 check: a signature entry under the signer
    and key id is looked up, and is good when it is [signatureBy] the
    key. *)
Definition checkSignature (userId keyId pub : string) (o : SignedObject)
    : SignatureVerification :=
  let sigs := match o with
              | ODevice dk => dk_signatures dk
              | OCross ck => signatures ck
              end in
  let entry : option string :=
    bySigner ← sigs;
    byKey ← (bySigner : Signatures) !! userId;
    (byKey : gmap string string) !! ("ed25519:" +:+ keyId) in
  match entry with
  | None => NotSigned
  | Some sig => if bool_decide (sig = signatureBy pub) then Valid else Invalid
  end.

Definition seedPub (seed : list Byte.byte) : string :=
  "PUB-" +:+ string_of_list_byte seed.

Definition myMSK : CrossSigningKey :=
  mkCrossSigningKey me ["master"] {[ "ed25519:PUB-m" := "PUB-m" ]} None.
Definition myUSK : CrossSigningKey :=
  mkCrossSigningKey me ["user_signing"] {[ "ed25519:PUB-u" := "PUB-u" ]}
    (signedBy me "PUB-m").
Definition aliceMSK : CrossSigningKey :=
  mkCrossSigningKey alice ["master"] {[ "ed25519:AM" := "AM" ]}
    (signedBy me "PUB-u").
Definition aliceSSK : CrossSigningKey :=
  mkCrossSigningKey alice ["self_signing"] {[ "ed25519:AS" := "AS" ]}
    (signedBy alice "AM").

(** Keys that are malformed: no ed25519 entry, two ed25519 entries, an
    empty usage array. *)
Definition noEdKey : CrossSigningKey :=
  mkCrossSigningKey me ["master"] {[ "curve25519:x" := "PUB-m" ]} None.
Definition twoEdKey : CrossSigningKey :=
  mkCrossSigningKey me ["master"]
    {[ "ed25519:a" := "PUB-m"; "ed25519:b" := "PUB-m" ]} None.
Definition noUsageKey : CrossSigningKey :=
  mkCrossSigningKey me [] {[ "ed25519:PUB-m" := "PUB-m" ]} None.

Definition deviceSigned (id : string) : DeviceKey :=
  mkDeviceKey alice id {[ "ed25519:" +:+ id := "K" ]} (signedBy alice "AS").
Definition deviceUnsigned (id : string) : DeviceKey :=
  mkDeviceKey alice id {[ "ed25519:" +:+ id := "K" ]} None.
Definition deviceForged (id : string) : DeviceKey :=
  mkDeviceKey alice id {[ "ed25519:" +:+ id := "K" ]}
    (Some {[ alice := {[ "ed25519:AS" := "forged" ]} ]}).

Definition aliceMSKUnsigned : CrossSigningKey :=
  mkCrossSigningKey alice ["master"] {[ "ed25519:AM" := "AM" ]} None.
Definition aliceMSKForged : CrossSigningKey :=
  mkCrossSigningKey alice ["master"] {[ "ed25519:AM" := "AM" ]}
    (Some {[ me := {[ "ed25519:PUB-u" := "forged" ]} ]}).
Definition aliceSSKUnsigned : CrossSigningKey :=
  mkCrossSigningKey alice ["self_signing"] {[ "ed25519:AS" := "AS" ]} None.

(** Our published keys, and the given master and self-signing keys for
    [alice]; nobody else has published anything. *)
Definition directoryWith (theirMSK theirSSK : option CrossSigningKey)
    (userId : string) (u : KeyUsage) : option CrossSigningKey :=
  if bool_decide (userId = me) then
    match u with
    | Master => Some myMSK
    | UserSigning => Some myUSK
    | SelfSigning => None
    end
  else if bool_decide (userId = alice) then
    match u with
    | Master => theirMSK
    | SelfSigning => theirSSK
    | UserSigning => None
    end
  else None.

(** The published keys of a healthy deployment. *)
Definition directory : string → KeyUsage → option CrossSigningKey :=
  directoryWith (Some aliceMSK) (Some aliceSSK).

(** Collaborators over a given key directory and device list; the secrets
    are the one-letter seeds ["m"], ["s"], ["u"]. *)
Definition collaborators
    (dir : string → KeyUsage → option CrossSigningKey)
    (devices : list DeviceKey) : Collaborators := {|
  ownUserId := me;
  deviceId := "DEV0";
  readSecret name :=
    if bool_decide (name = "m.cross_signing.master") then Some "m"
    else if bool_decide (name = "m.cross_signing.self_signing") then Some "s"
    else if bool_decide (name = "m.cross_signing.user_signing") then Some "u"
    else None;
  base64_decode := list_byte_of_string;
  init_with_seed seed := Some (seedPub seed);
  getCrossSigningKeyForUser userId u _ := dir userId u;
  deviceForId _ id := Some (deviceUnsigned id);
  devicesForUsers _ := devices;
  getUnsignedDeviceKey := mkDeviceKey me "DEV0" ∅ None;
  verifyEd25519Signature := checkSignature;
  pkSign _ seed signer _ :=
    {[ signer :=
         {[ "ed25519:" +:+ seedPub seed := signatureBy (seedPub seed) ]} ]};
  uploadSignatures_ok _ := true;
  newChannelId _ msg :=
    match msg with Some ev => transaction_id ev | None => "local" end
|}.

Definition healthy : Collaborators :=
  collaborators directory [deviceSigned "A1"; deviceSigned "A2"].

Definition withDevices (devices : list DeviceKey) : Collaborators :=
  collaborators directory devices.

Definition withSubjectKeys (theirMSK theirSSK : option CrossSigningKey)
    : Collaborators :=
  collaborators (directoryWith theirMSK theirSSK) [deviceSigned "A1"].

(** The own master key is published without any ed25519 entry. *)
Definition ownKeyMalformed : Collaborators :=
  collaborators (λ userId u, if bool_decide (userId = me) then Some noEdKey
                             else None) [].

Definition trustedState : State := mkState true None [].

(** A start message from [alice] in transaction ["t1"], the instance after
    that message, and the instance once the session it began has
    finished. *)
Definition startT1 : UnencryptedEvent := mkEvent Start alice "t1".
Definition duringT1 : State :=
  stateAfter (@onMessage healthy startT1 initialState).
Definition afterT1 : State := finishSession 0 duringT1.
Definition requestT2 : UnencryptedEvent := mkEvent Request alice "t2".

(** A session store over database ["db"] that holds strings, written to
    the mirror as they are; a mirrored text that begins with a brace does
    not parse. *)
Definition host : SessionStore.Host string := {|
  SessionStore.databaseName := "db";
  SessionStore.SESSION_E2EE_KEY_PREFIX := "e2ee:";
  SessionStore.stringify v := Some v;
  SessionStore.parse raw :=
    if JS.startsWith "{" raw then None else Some raw
|}.

Definition emptyMedia : SessionStore.Media string :=
  SessionStore.mkMedia ∅ [].

(** The primary store holds an identity, the mirror holds another value
    for it and one entry the primary store has lost. *)
Definition seededMedia : SessionStore.Media string :=
  SessionStore.mkMedia {[ "e2ee:K" := "old" ]}
    [("db.session.e2ee:K", "new"); ("other", "x");
     ("db.session.e2ee:lost", "found"); ("db.session.sync", "token")].

End Demo.

(** ** Derived notions the further properties are stated with *)
Module Derived.
Import CrossSigning Spec.
Local Open Scope string_scope.

Section Engine.
Context `{Collaborators}.

(** The published own master key matches the master seed, offline or
    online. *)
Definition masterKeyMatches : Prop :=
  ∃ allowNetwork seedStr derived pmk,
    readSecret "m.cross_signing.master" = Some seedStr
    ∧ seedStr ≠ ""%string
    ∧ init_with_seed (base64_decode seedStr) = Some derived
    ∧ getCrossSigningKeyForUser ownUserId Master allowNetwork = Some pmk
    ∧ getKeyEd25519Key pmk = Some derived
    ∧ derived ≠ ""%string.

(** The session in progress is the one created last. *)
Definition latestInProgress (st : State) : Prop :=
  sasVerificationInProgress st
  = match sasHeap st with
    | [] => None
    | _ :: _ => Some (length (sasHeap st) - 1)
    end.



(** The secrets a run has read, in order. *)
Definition secretsRead (t : list Effect) : list string :=
  omap (λ e, match e with ReadSecret name => Some name | _ => None end) t.

(** The logical name of the secret that holds the seed of a key. *)
Definition secretName (u : KeyUsage) : string :=
  "m.cross_signing." +:+ KeyUsage_str u.

(** The seed [getSigningKey] decodes for a usage, if the secret is there. *)
Definition seedFor (u : KeyUsage) : option (list Byte.byte) :=
  match readSecret (secretName u) with
  | Some seedStr =>
      if JS.truthy seedStr then Some (base64_decode seedStr) else None
  | None => None
  end.

(** A device key and a cross-signing key without their [signatures]. *)
Definition strippedDevice (dk : DeviceKey) : DeviceKey :=
  mkDeviceKey (dk_user_id dk) (dk_device_id dk) (dk_keys dk) None.
Definition strippedKey (ck : CrossSigningKey) : CrossSigningKey :=
  mkCrossSigningKey (user_id ck) (usage ck) (keys ck) None.

(** The payload that uploads one signed object. *)
Definition payloadOf (userId keyId : string) (o : SignedObject)
    : SignaturePayload :=
  {[ userId := {[ keyId := o ]} ]}.

Definition quiet (e : Effect) : Prop :=
  isSigning e = false ∧ ∀ payload, e ≠ UploadSignatures payload.

(** What a run of a signing operation may look like.  Either it signs and
    uploads nothing, and then hands out no signed object; or it signs once,
    uploads exactly what it signed right after signing it, and then
    returns the signed object when the upload goes through and rejects
    when it does not. *)
Definition signsThenUploads
    (run : Completion (option SignedObject) * State * list Effect) : Prop :=
  (Forall quiet (effects run) ∧ ∀ o, result run ≠ Returned (Some o))
  ∨ ∃ before userId keyId o,
      effects run
      = (before ++ [Sign ownUserId o;
                    UploadSignatures (payloadOf userId keyId o)])%list
      ∧ Forall quiet before
      ∧ result run
        = if uploadSignatures_ok (payloadOf userId keyId o)
          then Returned (Some o) else Rejected.

End Engine.

(** The states an instance can be in when its collaborators (the secret
    storage, the device tracker, Olm, the homeserver) answer one step after
    the other, each step under the answers of its own time; the list holds
    them, the latest first. *)
Inductive ReachableUnder : list Collaborators → State → Prop :=
| under_init : ReachableUnder [] initialState
| under_step env envs st st' :
    ReachableUnder envs st → @Step env st st' →
    ReachableUnder (env :: envs) st'.

End Derived.

(** ** What happens to the two media of a session store *)
Module StoreEvents.
Import SessionStore.

Section Store.
Context {V : Type} `{Host V}.

(** The primary store is wiped by the host environment; the mirror
    survives. *)
Definition losePrimary (m : Media V) : Media V :=
  mkMedia ∅ (_localStorage m).

(** Every mirrored text under the restore prefix parses. *)
Definition mirrorParses (ls : DOMStorage) : Prop :=
  ∀ lsKey raw, (lsKey, raw) ∈ ls → JS.startsWith prefix lsKey = true →
               is_Some (parse raw).

(** One turn of the [iterateValues] callback. *)
Definition backupEntry (ls : DOMStorage) (e : string * V) : DOMStorage :=
  if JS.startsWith SESSION_E2EE_KEY_PREFIX e.1
  then _writeKeyToLocalStorage ls e.1 e.2 else ls.

End Store.

End StoreEvents.

(** ** Further deployments, for the further properties *)
Module Fixtures.
Import CrossSigning Demo.
Local Open Scope string_scope.

(** Published keys that hold no ed25519 entry, though validly signed. *)
Definition myUSKUnusable : CrossSigningKey :=
  mkCrossSigningKey me ["user_signing"] {[ "curve25519:u" := "PUB-u" ]}
    (signedBy me "PUB-m").
Definition aliceSSKUnusable : CrossSigningKey :=
  mkCrossSigningKey alice ["self_signing"] {[ "curve25519:s" := "AS" ]}
    (signedBy alice "AM").
Definition aliceMSKUnusable : CrossSigningKey :=
  mkCrossSigningKey alice ["master"] {[ "curve25519:m" := "AM" ]}
    (signedBy me "PUB-u").

Definition directoryUnusableUSK (userId : string) (u : KeyUsage)
    : option CrossSigningKey :=
  if bool_decide (userId = me) then
    match u with
    | Master => Some myMSK
    | UserSigning => Some myUSKUnusable
    | SelfSigning => None
    end
  else directory userId u.

Definition unusableUSK : Collaborators :=
  collaborators directoryUnusableUSK [deviceSigned "A1"].
Definition unusableSSK : Collaborators :=
  withSubjectKeys (Some aliceMSK) (Some aliceSSKUnusable).
Definition unusableSubjectMSK : Collaborators :=
  withSubjectKeys (Some aliceMSKUnusable) (Some aliceSSK).

(** The instance after [load] in the healthy deployment. *)
Definition loaded : State := stateAfter (@load healthy initialState).

(** The healthy deployment, but Olm throws on the master seed. *)
Definition seedRefused : Collaborators := {|
  ownUserId := @ownUserId healthy;
  deviceId := @deviceId healthy;
  readSecret := @readSecret healthy;
  base64_decode := @base64_decode healthy;
  init_with_seed _ := None;
  getCrossSigningKeyForUser := @getCrossSigningKeyForUser healthy;
  deviceForId := @deviceForId healthy;
  devicesForUsers := @devicesForUsers healthy;
  getUnsignedDeviceKey := @getUnsignedDeviceKey healthy;
  verifyEd25519Signature := @verifyEd25519Signature healthy;
  pkSign := @pkSign healthy;
  uploadSignatures_ok := @uploadSignatures_ok healthy;
  newChannelId := @newChannelId healthy
|}.

(** The healthy deployment after the secret storage has lost its secrets
    and the own keys are no longer published. *)
Definition secretsLost : Collaborators := {|
  ownUserId := @ownUserId healthy;
  deviceId := @deviceId healthy;
  readSecret _ := None;
  base64_decode := @base64_decode healthy;
  init_with_seed := @init_with_seed healthy;
  getCrossSigningKeyForUser _ _ _ := None;
  deviceForId := @deviceForId healthy;
  devicesForUsers := @devicesForUsers healthy;
  getUnsignedDeviceKey := @getUnsignedDeviceKey healthy;
  verifyEd25519Signature := @verifyEd25519Signature healthy;
  pkSign := @pkSign healthy;
  uploadSignatures_ok := @uploadSignatures_ok healthy;
  newChannelId := @newChannelId healthy
|}.

(** The instance after [load] in the healthy deployment and a second
    [load] once the secrets are lost. *)
Definition loadedThenLost : State :=
  stateAfter (@load secretsLost loaded).

(** A store that holds an identity and a sync token, over a mirror that
    holds an unrelated entry. *)
Definition identityMedia : SessionStore.Media string :=
  SessionStore.mkMedia {[ "e2ee:K" := "v"; "sync" := "t" ]} [("other", "x")].

End Fixtures.

(** * Properties *)

Section KeyNormalisation.
Import CrossSigning Spec.

Lemma filter_fst_length (f : string → bool) (l : list (string * string)) :
  length (List.filter f (map fst l))
  = length (filter (λ kv : string * string, f kv.1 = true) l).
Proof.
  induction l as [|[k v] l IH]; [done |].
  cbn [map List.filter fst]. rewrite filter_cons. cbn [fst].
  destruct (f k) eqn:E.
  - rewrite decide_True by done. cbn. by rewrite IH.
  - rewrite decide_False by (by intros ?). exact IH.
Qed.

(** The list the source filters has as many elements as the map has
    ed25519 entries. *)
Lemma ed25519KeyIds_length (k : CrossSigningKey) :
  length (ed25519KeyIds k) = ed25519EntryCount k.
Proof.
  unfold ed25519KeyIds, ed25519EntryCount.
  rewrite filter_fst_length, <- length_map_to_list, map_filter_alt.
  symmetry. apply Permutation_length, map_to_list_to_map.
  eapply sublist_NoDup; [apply (NoDup_fst_map_to_list (keys k)) |].
  apply fmap_sublist, sublist_filter.
Qed.

Lemma getKeyEd25519Key_malformed (k : CrossSigningKey) :
  ed25519EntryCount k ≠ 1 → getKeyEd25519Key k = None.
Proof.
  rewrite <- ed25519KeyIds_length. unfold getKeyEd25519Key.
  by destruct (ed25519KeyIds k) as [|? [|? ?]].
Qed.

(** C8. A key whose usage array has length 0 or at least 2 has no usage,
    and a key whose [keys] map holds zero or at least two entries with an
    [ed25519:] key id has no ed25519 key: both extractions return
    [undefined], they do not throw. *)
Theorem malformed_key_is_absent (k : CrossSigningKey) :
  (length (usage k) = 0 ∨ 2 ≤ length (usage k) → getKeyUsage k = None)
  ∧ (ed25519EntryCount k = 0 ∨ 2 ≤ ed25519EntryCount k →
     getKeyEd25519Key k = None).
Proof.
  split.
  - intros Hlen. unfold getKeyUsage.
    destruct (usage k) as [|u [|u' us]]; cbn in Hlen; [done | lia | done].
  - intros Hcount. apply getKeyEd25519Key_malformed. lia.
Qed.

Lemma malformed_key_is_absent_witness :
  getKeyUsage Demo.noUsageKey = None
  ∧ getKeyEd25519Key Demo.noEdKey = None
  ∧ getKeyEd25519Key Demo.twoEdKey = None.
Proof.
  split; [| split].
  - apply (proj1 (malformed_key_is_absent Demo.noUsageKey)).
    left. reflexivity.
  - apply (proj2 (malformed_key_is_absent Demo.noEdKey)).
    left. vm_compute. reflexivity.
  - apply (proj2 (malformed_key_is_absent Demo.twoEdKey)).
    right. vm_compute. lia.
Defined.

End KeyNormalisation.

Section SigningOperations.
Import CrossSigning.
Context {env : Collaborators}.

(** C3. While the own master key is not trusted, [signOwnDevice],
    [signDevice] and [signUser] return [undefined], leave the instance as
    it was and touch no collaborator: nothing is read, signed, fetched or
    uploaded. *)
Theorem signing_requires_trust (st : State) (device userId : string) :
  _isMasterKeyTrusted st = false →
  signOwnDevice st = (Returned None, st, [])
  ∧ signDevice device st = (Returned None, st, [])
  ∧ signUser userId st = (Returned None, st, []).
Proof.
  intros Huntrusted.
  unfold signOwnDevice, signDevice, signUser, mbind, M_bind, getState.
  rewrite Huntrusted. by cbn.
Qed.

(** C9. [signUser] on the caller's own user id returns [undefined] without
    touching any collaborator, whether or not the own master key is
    trusted: no key is fetched and no signature is uploaded. *)
Theorem signUser_own_user_is_noop (st : State) :
  signUser ownUserId st = (Returned None, st, [])
  ∧ Forall (λ e, isNetworkCall e = false) (effects (signUser ownUserId st)).
Proof.
  assert (signUser ownUserId st = (Returned None, st, [])) as Hrun.
  { unfold signUser, mbind, M_bind, getState.
    destruct (_isMasterKeyTrusted st); cbn; [| done].
    by rewrite bool_decide_eq_true_2. }
  split; [exact Hrun |]. rewrite Hrun. constructor.
Qed.

End SigningOperations.

Lemma signing_requires_trust_witness :
  @CrossSigning.signOwnDevice Demo.healthy CrossSigning.initialState
  = (CrossSigning.Returned None, CrossSigning.initialState, [])
  ∧ @CrossSigning.signDevice Demo.healthy "DEV1" CrossSigning.initialState
    = (CrossSigning.Returned None, CrossSigning.initialState, [])
  ∧ @CrossSigning.signUser Demo.healthy Demo.alice CrossSigning.initialState
    = (CrossSigning.Returned None, CrossSigning.initialState, []).
Proof.
  apply (@signing_requires_trust Demo.healthy CrossSigning.initialState
           "DEV1" Demo.alice).
  reflexivity.
Defined.

Section SigningExamples.
Import CrossSigning Demo.

(** The offline pass at load time establishes trust when the derived and
    the published key agree, and signing is active from then on. *)
Example load_establishes_trust :
  @load healthy initialState
  = (Returned true, trustedState,
     [ReadSecret "m.cross_signing.master";
      QueryCrossSigningKey me Master false]).
Proof. vm_compute. reflexivity. Qed.

Example trusted_signDevice_signs_and_uploads :
  let run :=
    @signDevice healthy "DEV1" (stateAfter (@load healthy initialState)) in
  result run ≠ Returned None
  ∧ existsb isSigning (effects run) = true
  ∧ existsb isNetworkCall (effects run) = true.
Proof. vm_compute. split; [discriminate | auto]. Qed.

Example trusted_signUser_fetches_signs_and_uploads :
  map isNetworkCall (effects (@signUser healthy alice trustedState))
  = [true; false; false; true]
  ∧ map isSigning (effects (@signUser healthy alice trustedState))
    = [false; false; true; false].
Proof. vm_compute. auto. Qed.

End SigningExamples.

Section SelfTrust.
Import CrossSigning Spec.
Context {env : Collaborators}.

(** What [getSigningKey] hands back, as a function of the secret read. *)
Lemma getSigningKey_run (u : KeyUsage) (st : State) :
  ∃ seed, getSigningKey u st
          = (Returned seed, st,
             [ReadSecret ("m.cross_signing." +:+ KeyUsage_str u)])
    ∧ (seed = None ↔
       JS.truthy_opt (readSecret ("m.cross_signing." +:+ KeyUsage_str u))
       = false).
Proof.
  unfold getSigningKey, mbind, M_bind, perform. cbn.
  destruct (readSecret _) as [s|]; cbn.
  - destruct (JS.truthy s); cbn; eexists; (split; [reflexivity |]);
      split; congruence.
  - eexists; split; [reflexivity | done].
Qed.

(** The master seed as [getSigningKey] decodes it from the secret read. *)
Lemma getSigningKey_Master (st : State) (seed : list Byte.byte) :
  result (getSigningKey Master st) = Returned (Some seed) ↔
  ∃ seedStr, readSecret "m.cross_signing.master" = Some seedStr
             ∧ seedStr ≠ ""%string
             ∧ seed = base64_decode seedStr.
Proof.
  unfold getSigningKey, mbind, M_bind, perform, result. cbn.
  destruct (readSecret _) as [[|c s]|]; cbn.
  - split; [done | by intros (? & [= <-] & ? & _)].
  - split.
    + intros [= <-]. by eexists.
    + by intros (? & [= <-] & _ & ->).
  - split; [done | by intros (? & ? & _)].
Qed.

(** The outcomes of [verifyMSKFrom4S], as the source decides them. *)
Lemma verifyMSKFrom4S_run (allowNetwork : bool) (st : State) :
  verifyMSKFrom4S allowNetwork st =
  let secret := ReadSecret "m.cross_signing.master" in
  let query := QueryCrossSigningKey ownUserId Master allowNetwork in
  match readSecret "m.cross_signing.master" with
  | None => (Returned NoPrivKey, st, [secret])
  | Some seedStr =>
      if JS.truthy seedStr then
        match init_with_seed (base64_decode seedStr) with
        | None => (Rejected, st, [secret])
        | Some derived =>
            match getCrossSigningKeyForUser ownUserId Master allowNetwork with
            | None => (Returned NoPubKey, st, [secret; query])
            | Some pmk =>
                let trusted :=
                  JS.truthy_opt (getKeyEd25519Key pmk)
                  && bool_decide (getKeyEd25519Key pmk = Some derived) in
                (Returned (if trusted then MSKValid
                           else DerivedPubKeyMismatch),
                 mkState trusted (sasVerificationInProgress st) (sasHeap st),
                 [secret; query])
            end
        end
      else (Returned NoPrivKey, st, [secret])
  end.
Proof.
  unfold verifyMSKFrom4S, getSigningKey, queryCrossSigningKey,
    setMasterKeyTrusted, mbind, M_bind, perform, reject, getState, setState.
  cbn.
  destruct (readSecret _) as [seedStr|]; cbn; [| done].
  destruct (JS.truthy seedStr); cbn; [| done].
  destruct (init_with_seed _) as [derived|]; cbn; [| done].
  destruct (getCrossSigningKeyForUser ownUserId Master allowNetwork)
    as [pmk|]; cbn; [| done].
  by destruct (_ && _).
Qed.

Lemma load_run (st : State) :
  load st =
  (match result (verifyMSKFrom4S false st) with
   | Returned v => Returned (bool_decide (v ≠ NoPrivKey))
   | Rejected => Rejected
   end,
   stateAfter (verifyMSKFrom4S false st),
   effects (verifyMSKFrom4S false st)).
Proof.
  unfold load, mbind, M_bind, result, stateAfter, effects.
  destruct (verifyMSKFrom4S false st) as [[[v|] st'] t]; cbn; [| done].
  by rewrite app_nil_r.
Qed.

(** C10 (as the code has it). [load] returns [true] exactly when a private
    master seed is readable, the Secret Reader holding a non-empty master
    secret, and Olm derives a public key from it; it returns [false]
    exactly when no seed is readable; and it rejects exactly when a seed is
    readable and the derivation throws.  So [load] reports cross-signing as
    enabled also when the offline check ends in [NoPubKey] or
    [DerivedPubKeyMismatch], and then an instance whose master key was not
    trusted is still not trusted. *)
Theorem load_reports_private_seed (st : State) :
  (result (load st) = Returned true ↔
   ∃ seedStr, readSecret "m.cross_signing.master" = Some seedStr
              ∧ seedStr ≠ ""%string
              ∧ is_Some (init_with_seed (base64_decode seedStr)))
  ∧ (result (load st) = Returned false ↔
     readSecret "m.cross_signing.master" = None
     ∨ readSecret "m.cross_signing.master" = Some ""%string)
  ∧ (result (load st) = Rejected ↔
     ∃ seedStr, readSecret "m.cross_signing.master" = Some seedStr
                ∧ seedStr ≠ ""%string
                ∧ init_with_seed (base64_decode seedStr) = None)
  ∧ (∀ v, result (verifyMSKFrom4S false st) = Returned v →
          v = NoPubKey ∨ v = DerivedPubKeyMismatch →
          _isMasterKeyTrusted st = false →
          result (load st) = Returned true
          ∧ _isMasterKeyTrusted (stateAfter (load st)) = false).
Proof.
  rewrite load_run, verifyMSKFrom4S_run. cbn zeta.
  destruct (readSecret _) as [[|c seedStr]|]; cbn.
  - split; [split; [done | by intros (? & [= <-] & ? & _)] |].
    split; [split; auto |].
    split; [split; [done | by intros (? & [= <-] & ? & _)] |].
    by intros v [= <-] [? | ?].
  - destruct (init_with_seed _) as [derived|] eqn:Hderived; cbn.
    + assert (∃ s, Some (String c seedStr) = Some s ∧ s ≠ ""%string
                   ∧ is_Some (init_with_seed (base64_decode s))) as Hreadable.
      { eexists. split; [done |]. split; [done |]. by rewrite Hderived. }
      destruct (getCrossSigningKeyForUser ownUserId Master false)
        as [pmk|]; cbn; [destruct (_ && _) eqn:Htrusted; cbn |].
      all: split; [split; [done | done] |].
      all: split; [split; [done | by intros [? | ?]] |].
      all: split; [split; [done | intros (? & [= <-] & _ & ?); congruence] |].
      all: intros v [= <-] Hkind Huntrusted; split; try done.
      by destruct Hkind.
    + split; [split; [done |] |].
      { intros (? & [= <-] & _ & Hsome). rewrite Hderived in Hsome.
        by destruct Hsome. }
      split; [split; [done | by intros [? | ?]] |].
      split; [split; [by eexists | done] | done].
  - split; [split; [done | by intros (? & ? & _)] |].
    split; [split; auto |].
    split; [split; [done | by intros (? & ? & _)] |].
    by intros v [= <-] [? | ?].
Qed.

(** C4 (as the code has it). With the private seed readable, Olm deriving
    a public key from it, and a published own master key whose [keys] hold
    zero or several ed25519 entries, [verifyMSKFrom4S] fetches the
    published key, answers [DerivedPubKeyMismatch], not [NoPubKey], and
    leaves the own master key untrusted. *)
Theorem malformed_published_key_is_mismatch
    (allowNetwork : bool) (st : State) (pmk : CrossSigningKey) :
  (∃ seed, result (getSigningKey Master st) = Returned (Some seed)
           ∧ is_Some (init_with_seed seed)) →
  getCrossSigningKeyForUser ownUserId Master allowNetwork = Some pmk →
  ed25519EntryCount pmk = 0 ∨ 2 ≤ ed25519EntryCount pmk →
  result (verifyMSKFrom4S allowNetwork st) = Returned DerivedPubKeyMismatch
  ∧ _isMasterKeyTrusted (stateAfter (verifyMSKFrom4S allowNetwork st))
    = false
  ∧ QueryCrossSigningKey ownUserId Master allowNetwork
    ∈ effects (verifyMSKFrom4S allowNetwork st).
Proof.
  intros (sk & Hsk & [derived Hderived]) Hpub Hcount.
  apply getSigningKey_Master in Hsk as (seedStr & Hsecret & Hne & ->).
  rewrite verifyMSKFrom4S_run, Hsecret. cbn zeta.
  destruct seedStr as [|c seedStr]; [done |]. cbn [JS.truthy].
  rewrite Hderived, Hpub. rewrite getKeyEd25519Key_malformed by lia. cbn.
  split; [done |]. split; [done |].
  rewrite !elem_of_cons. by right; left.
Qed.

End SelfTrust.

Lemma load_reports_private_seed_witness :
  CrossSigning.result (@CrossSigning.load Demo.ownKeyMalformed
                         CrossSigning.initialState)
  = CrossSigning.Returned true
  ∧ CrossSigning._isMasterKeyTrusted
      (CrossSigning.stateAfter (@CrossSigning.load Demo.ownKeyMalformed
                                  CrossSigning.initialState)) = false.
Proof.
  apply (proj2 (proj2 (proj2 (@load_reports_private_seed Demo.ownKeyMalformed
                                CrossSigning.initialState)))
           CrossSigning.DerivedPubKeyMismatch).
  - vm_compute. reflexivity.
  - right. reflexivity.
  - reflexivity.
Defined.

(** C10 (as stated) fails: the Secret Reader holds a master seed, Olm
    throws on it, and [load] rejects instead of returning [true]. *)
Lemma load_rejects_on_refused_seed :
  @CrossSigning.readSecret Fixtures.seedRefused "m.cross_signing.master"
  = Some "m"%string
  ∧ CrossSigning.result
      (@CrossSigning.getSigningKey Fixtures.seedRefused CrossSigning.Master
         CrossSigning.initialState)
    = CrossSigning.Returned (Some (list_byte_of_string "m"))
  ∧ CrossSigning.result (@CrossSigning.load Fixtures.seedRefused
                           CrossSigning.initialState)
    = CrossSigning.Rejected
  ∧ CrossSigning.result (@CrossSigning.load Fixtures.seedRefused
                           CrossSigning.initialState)
    ≠ CrossSigning.Returned true.
Proof.
  split; [vm_compute; reflexivity |].
  split; [vm_compute; reflexivity |].
  split; [vm_compute; reflexivity |].
  vm_compute. discriminate.
Qed.

Lemma malformed_published_key_is_mismatch_witness :
  CrossSigning.result (@CrossSigning.verifyMSKFrom4S Demo.ownKeyMalformed false
                         CrossSigning.initialState)
  = CrossSigning.Returned CrossSigning.DerivedPubKeyMismatch
  ∧ CrossSigning._isMasterKeyTrusted
      (CrossSigning.stateAfter
         (@CrossSigning.verifyMSKFrom4S Demo.ownKeyMalformed false
            CrossSigning.initialState)) = false
  ∧ CrossSigning.QueryCrossSigningKey Demo.me CrossSigning.Master false
    ∈ CrossSigning.effects
        (@CrossSigning.verifyMSKFrom4S Demo.ownKeyMalformed false
           CrossSigning.initialState).
Proof.
  apply (@malformed_published_key_is_mismatch Demo.ownKeyMalformed false
           CrossSigning.initialState Demo.noEdKey).
  - eexists. split; [vm_compute; reflexivity |]. eexists. vm_compute.
    reflexivity.
  - vm_compute. reflexivity.
  - left. vm_compute. reflexivity.
Defined.

(** C4 (as stated) fails: the seed is readable, Olm derives a key from it,
    and the own master key is published without an ed25519 entry, and the
    answer is not [NoPubKey]. *)
Lemma malformed_published_key_is_not_NoPubKey :
  (∃ seed, CrossSigning.result
             (@CrossSigning.getSigningKey Demo.ownKeyMalformed
                CrossSigning.Master CrossSigning.initialState)
           = CrossSigning.Returned (Some seed)
           ∧ is_Some (@CrossSigning.init_with_seed Demo.ownKeyMalformed seed))
  ∧ @CrossSigning.getCrossSigningKeyForUser Demo.ownKeyMalformed
      Demo.me CrossSigning.Master false = Some Demo.noEdKey
  ∧ Spec.ed25519EntryCount Demo.noEdKey = 0
  ∧ CrossSigning.result
      (@CrossSigning.verifyMSKFrom4S Demo.ownKeyMalformed false
         CrossSigning.initialState)
    ≠ CrossSigning.Returned CrossSigning.NoPubKey.
Proof.
  split.
  { eexists. split; [vm_compute; reflexivity |]. eexists. vm_compute.
    reflexivity. }
  split; [vm_compute; reflexivity |].
  split; [vm_compute; reflexivity |].
  vm_compute. discriminate.
Qed.

Section TrustChain.
Import CrossSigning Spec.

Lemma worstVerdict_cons (v : SignatureVerification)
    (vs : list SignatureVerification) :
  worstVerdict (v :: vs) = worse v (worstVerdict vs).
Proof.
  unfold worstVerdict.
  destruct (decide (Invalid ∈ v :: vs)) as [Ha|Ha],
           (decide (NotSigned ∈ v :: vs)) as [Hb|Hb],
           (decide (Invalid ∈ vs)) as [Hc|Hc],
           (decide (NotSigned ∈ vs)) as [Hd|Hd];
    destruct v; cbn; try reflexivity; exfalso;
    rewrite ?elem_of_cons, ?not_elem_of_cons in Ha, Hb;
    intuition congruence.
Qed.

Lemma worse_assoc (a b c : SignatureVerification) :
  worse (worse a b) c = worse a (worse b c).
Proof. by destruct a, b, c. Qed.

Context {env : Collaborators}.

(** One turn of the [reduce] callback takes the worse of the running
    verdict and the device's. *)
Lemma lowerVerification_worse (ssk : CrossSigningKey)
    (lowest : SignatureVerification) (dk : DeviceKey) :
  lowerVerification ssk lowest dk
  = worse lowest (hasValidSignatureFrom (ODevice dk) ssk).
Proof.
  unfold lowerVerification.
  by destruct lowest, (hasValidSignatureFrom (ODevice dk) ssk).
Qed.

Lemma fold_lowerVerification (ssk : CrossSigningKey) (dks : list DeviceKey)
    (acc : SignatureVerification) :
  fold_left (lowerVerification ssk) dks acc
  = worse acc
      (worstVerdict (map (λ dk, hasValidSignatureFrom (ODevice dk) ssk) dks)).
Proof.
  revert acc. induction dks as [|dk dks IH]; intros acc.
  - by destruct acc.
  - cbn [fold_left map].
    by rewrite IH, lowerVerification_worse, worstVerdict_cons, worse_assoc.
Qed.

(** The aggregate [reduce] computes is the worst verdict of the list. *)
Lemma lowestDeviceVerification_worst (ssk : CrossSigningKey)
    (dks : list DeviceKey) :
  lowestDeviceVerification ssk dks
  = worstVerdict (map (λ dk, hasValidSignatureFrom (ODevice dk) ssk) dks).
Proof.
  unfold lowestDeviceVerification. rewrite fold_lowerVerification.
  by destruct (worstVerdict _).
Qed.

(** [getUserTrust] once steps 1 to 4 have passed: what is left is decided
    by the subject's keys and devices. *)
Lemma getUserTrust_own_side (st : State) (userId : string)
    (ourUSK : CrossSigningKey) :
  ownSideVerified st ourUSK →
  result (getUserTrust userId st) =
  Returned
    match getCrossSigningKeyForUser userId Master true with
    | None => UserNotSigned
    | Some theirMSK =>
        match hasValidSignatureFrom (OCross theirMSK) ourUSK with
        | NotSigned => UserNotSigned
        | Invalid => UserSignatureMismatch
        | Valid =>
            match getCrossSigningKeyForUser userId SelfSigning true with
            | None => UserSetupError
            | Some theirSSK =>
                match hasValidSignatureFrom (OCross theirSSK) theirMSK with
                | Valid =>
                    match lowestDeviceVerification theirSSK
                            (devicesForUsers [userId]) with
                    | Valid => Trusted
                    | NotSigned => UserDeviceNotSigned
                    | Invalid => UserDeviceSignatureMismatch
                    end
                | _ => UserSetupError
                end
            end
        end
    end.
Proof.
  intros (Htrusted & ourMSK & HourMSK & HourUSK & Hsigned).
  unfold getUserTrust, queryCrossSigningKey, mbind, M_bind, perform, getState,
    result.
  rewrite Htrusted. cbn. rewrite HourMSK. cbn. rewrite HourUSK. cbn.
  rewrite Hsigned. cbn.
  destruct (getCrossSigningKeyForUser userId Master true) as [theirMSK|];
    cbn; [| done].
  destruct (hasValidSignatureFrom (OCross theirMSK) ourUSK); cbn; try done.
  destruct (getCrossSigningKeyForUser userId SelfSigning true) as [theirSSK|];
    cbn; [| done].
  destruct (hasValidSignatureFrom (OCross theirSSK) theirMSK); cbn; try done.
  by destruct (lowestDeviceVerification theirSSK (devicesForUsers [userId])).
Qed.

(** C1. In step 9 of [getUserTrust] the per-device verdicts are reduced to
    the worst one under [Invalid > NotSigned > Valid], and that aggregate
    decides the result: [Invalid] gives [UserDeviceSignatureMismatch],
    [NotSigned] gives [UserDeviceNotSigned], [Valid] gives [Trusted].  With
    no device at all the aggregate is [Valid] and the user is [Trusted]. *)
Theorem device_verdicts_reduce_to_worst (st : State) (userId : string)
    (ourUSK theirSSK : CrossSigningKey) :
  ownSideVerified st ourUSK →
  subjectKeysVerified userId ourUSK theirSSK →
  lowestDeviceVerification theirSSK (devicesForUsers [userId])
  = worstVerdict (deviceVerdicts userId theirSSK)
  ∧ result (getUserTrust userId st)
    = Returned (trustOfWorst (worstVerdict (deviceVerdicts userId theirSSK)))
  ∧ (devicesForUsers [userId] = [] →
     worstVerdict (deviceVerdicts userId theirSSK) = Valid
     ∧ result (getUserTrust userId st) = Returned Trusted).
Proof.
  intros Hown (theirMSK & HtheirMSK & Hmsk & HtheirSSK & Hssk).
  assert (result (getUserTrust userId st)
          = Returned (trustOfWorst
                        (worstVerdict (deviceVerdicts userId theirSSK))))
    as Hresult.
  { rewrite (getUserTrust_own_side st userId ourUSK Hown).
    rewrite HtheirMSK, Hmsk, HtheirSSK, Hssk, lowestDeviceVerification_worst.
    unfold deviceVerdicts. by destruct (worstVerdict _). }
  split; [apply lowestDeviceVerification_worst |].
  split; [exact Hresult |].
  intros Hnone. rewrite Hresult. unfold deviceVerdicts. by rewrite Hnone.
Qed.

(** C2. In [getUserTrust], past the checks of the own side (steps 1 to 4):
    an absent subject master key gives [UserNotSigned]; a master key that
    is not signed by our user-signing key gives [UserNotSigned] and one
    whose signature is invalid gives [UserSignatureMismatch]; and with the
    master key verified, an absent self-signing key, or one whose
    signature by their master key is not [Valid], gives [UserSetupError]. *)
Theorem subject_key_verdicts (st : State) (userId : string)
    (ourUSK : CrossSigningKey) :
  ownSideVerified st ourUSK →
  (getCrossSigningKeyForUser userId Master true = None →
   result (getUserTrust userId st) = Returned UserNotSigned)
  ∧ (∀ theirMSK,
       getCrossSigningKeyForUser userId Master true = Some theirMSK →
       (hasValidSignatureFrom (OCross theirMSK) ourUSK = NotSigned →
        result (getUserTrust userId st) = Returned UserNotSigned)
       ∧ (hasValidSignatureFrom (OCross theirMSK) ourUSK = Invalid →
          result (getUserTrust userId st) = Returned UserSignatureMismatch)
       ∧ (hasValidSignatureFrom (OCross theirMSK) ourUSK = Valid →
          (getCrossSigningKeyForUser userId SelfSigning true = None →
           result (getUserTrust userId st) = Returned UserSetupError)
          ∧ (∀ theirSSK,
               getCrossSigningKeyForUser userId SelfSigning true
               = Some theirSSK →
               hasValidSignatureFrom (OCross theirSSK) theirMSK ≠ Valid →
               result (getUserTrust userId st) = Returned UserSetupError))).
Proof.
  intros Hown. rewrite (getUserTrust_own_side st userId ourUSK Hown).
  split; [by intros -> |].
  intros theirMSK ->.
  split; [by intros -> |]. split; [by intros -> |]. intros ->.
  split; [by intros -> |].
  intros theirSSK -> Hbad.
  by destruct (hasValidSignatureFrom (OCross theirSSK) theirMSK).
Qed.

End TrustChain.

Section TrustChainExamples.
Import CrossSigning Spec Demo.

Lemma demo_ownSideVerified (msk ssk : option CrossSigningKey)
    (devices : list DeviceKey) :
  @ownSideVerified (collaborators (directoryWith msk ssk) devices)
    trustedState myUSK.
Proof. split; [reflexivity |]. exists myMSK. by vm_compute. Qed.

(** The reductions the specification lists. *)
Example worst_of_valid_notsigned_valid :
  @lowestDeviceVerification healthy aliceSSK
    [deviceSigned "A1"; deviceUnsigned "A2"; deviceSigned "A3"] = NotSigned.
Proof. vm_compute. reflexivity. Qed.

Example worst_of_valid_invalid_notsigned :
  @lowestDeviceVerification healthy aliceSSK
    [deviceSigned "A1"; deviceForged "A2"; deviceUnsigned "A3"] = Invalid.
Proof. vm_compute. reflexivity. Qed.

Example worst_of_valid_valid :
  @lowestDeviceVerification healthy aliceSSK
    [deviceSigned "A1"; deviceSigned "A2"] = Valid.
Proof. vm_compute. reflexivity. Qed.

Example trust_runs :
  @getUserTrust healthy alice trustedState
  = (Returned Trusted, trustedState,
     [QueryCrossSigningKey me Master true;
      QueryCrossSigningKey me UserSigning true;
      QueryCrossSigningKey alice Master true;
      QueryCrossSigningKey alice SelfSigning true;
      QueryDevices [alice]]).
Proof. vm_compute. reflexivity. Qed.

Example untrusted_own_key :
  result (@getUserTrust healthy alice initialState) = Returned OwnSetupError.
Proof. vm_compute. reflexivity. Qed.

End TrustChainExamples.

Lemma device_verdicts_reduce_to_worst_witness :
  let env := Demo.withDevices
               [Demo.deviceSigned "A1"; Demo.deviceForged "A2";
                Demo.deviceUnsigned "A3"] in
  CrossSigning.result (@CrossSigning.getUserTrust env Demo.alice
                         Demo.trustedState)
  = CrossSigning.Returned CrossSigning.UserDeviceSignatureMismatch
  ∧ CrossSigning.result
      (@CrossSigning.getUserTrust (Demo.withDevices []) Demo.alice
         Demo.trustedState)
    = CrossSigning.Returned CrossSigning.Trusted.
Proof.
  split.
  - apply (@device_verdicts_reduce_to_worst
             (Demo.withDevices
                [Demo.deviceSigned "A1"; Demo.deviceForged "A2";
                 Demo.deviceUnsigned "A3"])
             Demo.trustedState Demo.alice Demo.myUSK Demo.aliceSSK).
    + split; [reflexivity |]. exists Demo.myMSK. vm_compute. auto.
    + exists Demo.aliceMSK. vm_compute. auto.
  - apply (@device_verdicts_reduce_to_worst (Demo.withDevices [])
             Demo.trustedState Demo.alice Demo.myUSK Demo.aliceSSK).
    + split; [reflexivity |]. exists Demo.myMSK. vm_compute. auto.
    + exists Demo.aliceMSK. vm_compute. auto.
    + reflexivity.
Defined.

Lemma subject_key_verdicts_witness :
  CrossSigning.result
    (@CrossSigning.getUserTrust (Demo.withSubjectKeys None None) Demo.alice
       Demo.trustedState)
  = CrossSigning.Returned CrossSigning.UserNotSigned
  ∧ CrossSigning.result
      (@CrossSigning.getUserTrust
         (Demo.withSubjectKeys (Some Demo.aliceMSKUnsigned)
            (Some Demo.aliceSSK)) Demo.alice Demo.trustedState)
    = CrossSigning.Returned CrossSigning.UserNotSigned
  ∧ CrossSigning.result
      (@CrossSigning.getUserTrust
         (Demo.withSubjectKeys (Some Demo.aliceMSKForged)
            (Some Demo.aliceSSK)) Demo.alice Demo.trustedState)
    = CrossSigning.Returned CrossSigning.UserSignatureMismatch
  ∧ CrossSigning.result
      (@CrossSigning.getUserTrust
         (Demo.withSubjectKeys (Some Demo.aliceMSK) None) Demo.alice
         Demo.trustedState)
    = CrossSigning.Returned CrossSigning.UserSetupError
  ∧ CrossSigning.result
      (@CrossSigning.getUserTrust
         (Demo.withSubjectKeys (Some Demo.aliceMSK)
            (Some Demo.aliceSSKUnsigned)) Demo.alice Demo.trustedState)
    = CrossSigning.Returned CrossSigning.UserSetupError.
Proof.
  split; [| split; [| split; [| split]]].
  - apply (proj1 (@subject_key_verdicts (Demo.withSubjectKeys None None)
                    Demo.trustedState Demo.alice Demo.myUSK
                    (demo_ownSideVerified _ _ _))).
    reflexivity.
  - apply (proj1 (proj2 (@subject_key_verdicts
                           (Demo.withSubjectKeys (Some Demo.aliceMSKUnsigned)
                              (Some Demo.aliceSSK))
                           Demo.trustedState Demo.alice Demo.myUSK
                           (demo_ownSideVerified _ _ _))
                    Demo.aliceMSKUnsigned eq_refl)).
    vm_compute. reflexivity.
  - apply (proj1 (proj2 (proj2 (@subject_key_verdicts
                           (Demo.withSubjectKeys (Some Demo.aliceMSKForged)
                              (Some Demo.aliceSSK))
                           Demo.trustedState Demo.alice Demo.myUSK
                           (demo_ownSideVerified _ _ _))
                    Demo.aliceMSKForged eq_refl))).
    vm_compute. reflexivity.
  - refine (proj1 (proj2 (proj2 (proj2 (@subject_key_verdicts
                           (Demo.withSubjectKeys (Some Demo.aliceMSK) None)
                           Demo.trustedState Demo.alice Demo.myUSK
                           (demo_ownSideVerified _ _ _))
                    Demo.aliceMSK eq_refl)) _) _).
    + vm_compute. reflexivity.
    + reflexivity.
  - refine (proj2 (proj2 (proj2 (proj2 (@subject_key_verdicts
                           (Demo.withSubjectKeys (Some Demo.aliceMSK)
                              (Some Demo.aliceSSKUnsigned))
                           Demo.trustedState Demo.alice Demo.myUSK
                           (demo_ownSideVerified _ _ _))
                    Demo.aliceMSK eq_refl)) _) Demo.aliceSSKUnsigned eq_refl _).
    + vm_compute. reflexivity.
    + vm_compute. discriminate.
Defined.

Section SessionAdmission.
Import CrossSigning Spec.
Context {env : Collaborators}.

Lemma readOnly_ret {A} (a : A) : readOnly (mret a).
Proof. by intros st. Qed.

Lemma readOnly_perform (e : Effect) : readOnly (perform e).
Proof. by intros st. Qed.

Lemma readOnly_reject {A} : readOnly (@reject A).
Proof. by intros st. Qed.

Lemma readOnly_bind {A B} (m : M A) (f : A → M B) :
  readOnly m → (∀ a, readOnly (f a)) → readOnly (m ≫= f).
Proof.
  intros Hm Hf st. specialize (Hm st). unfold mbind, M_bind, stateAfter in *.
  destruct (m st) as [[[a|] st'] t]; cbn in *; subst; [| done].
  specialize (Hf a st). unfold stateAfter in Hf.
  by destruct (f a st) as [[r st''] t'].
Qed.

Lemma readOnly_getState_bind {B} (f : State → M B) :
  (∀ a, readOnly (f a)) → readOnly (getState ≫= f).
Proof. intros Hf. apply readOnly_bind; [by intros st | done]. Qed.

Ltac read_only :=
  repeat first
    [ apply readOnly_ret | apply readOnly_perform | apply readOnly_reject
    | apply readOnly_getState_bind; intros ?
    | apply readOnly_bind; [| intros ?]
    | match goal with
      | |- readOnly (match ?x with _ => _ end) => destruct x
      | |- readOnly (if ?x then _ else _) => destruct x
      | |- readOnly (let _ := _ in _) => cbv zeta
      end ].

Lemma readOnly_signOwnDevice : readOnly signOwnDevice.
Proof. unfold signOwnDevice. read_only. Qed.

Lemma readOnly_signDevice (device : string) : readOnly (signDevice device).
Proof. unfold signDevice. read_only. Qed.

Lemma readOnly_signUser (userId : string) : readOnly (signUser userId).
Proof. unfold signUser, uploadSignatures, queryCrossSigningKey. read_only. Qed.

Lemma readOnly_getUserTrust (userId : string) : readOnly (getUserTrust userId).
Proof. unfold getUserTrust, queryCrossSigningKey. read_only. Qed.

(** [verifyMSKFrom4S] writes the trust flag and nothing else. *)
Lemma verifyMSKFrom4S_sessions (allowNetwork : bool) (st : State) :
  sasVerificationInProgress (stateAfter (verifyMSKFrom4S allowNetwork st))
  = sasVerificationInProgress st
  ∧ sasHeap (stateAfter (verifyMSKFrom4S allowNetwork st)) = sasHeap st.
Proof.
  rewrite verifyMSKFrom4S_run. cbn zeta.
  destruct (readSecret _) as [seedStr|]; [| done].
  destruct (JS.truthy seedStr); [| done].
  destruct (init_with_seed _) as [derived|]; [| done].
  by destruct (getCrossSigningKeyForUser ownUserId Master allowNetwork).
Qed.

Lemma start_sessions (st : State) :
  sasVerificationInProgress (stateAfter (start st))
  = sasVerificationInProgress st
  ∧ sasHeap (stateAfter (start st)) = sasHeap st.
Proof.
  destruct (verifyMSKFrom4S_sessions true st) as [Hcur Hheap].
  unfold start, mbind, M_bind, getState, stateAfter in *. cbn.
  destruct (_isMasterKeyTrusted st); cbn; [done |].
  by destruct (verifyMSKFrom4S true st) as [[[v|] st'] t].
Qed.

Lemma startVerification_run (userId : string)
    (msg : option UnencryptedEvent) (st : State) :
  startVerification userId msg st =
  if declines st then (Returned None, st, [])
  else (Returned (Some (length (sasHeap st))),
        mkState (_isMasterKeyTrusted st) (Some (length (sasHeap st)))
          (sasHeap st ++ [sessionBegunWith userId msg]), []).
Proof.
  unfold startVerification, declines, mbind, M_bind, getState. cbn.
  by destruct (match sasInProgress st with Some _ => _ | None => _ end).
Qed.

Lemma ignoresMessage_declines (st : State) (ev : UnencryptedEvent) :
  ignoresMessage st ev = false → declines st = false.
Proof.
  unfold ignoresMessage, declines.
  destruct (sasInProgress st) as [sas|]; [| done].
  by destruct (finished sas).
Qed.

Lemma onMessage_run (ev : UnencryptedEvent) (st : State) :
  onMessage ev st =
  if ignoresMessage st ev then (Returned tt, st, [])
  else if bool_decide (ev_type ev = Request)
          || bool_decide (ev_type ev = Start)
  then (Returned tt,
        mkState (_isMasterKeyTrusted st) (Some (length (sasHeap st)))
          (sasHeap st ++ [sessionBegunWith (sender ev) (Some ev)]),
        [StartSAS (length (sasHeap st))])
  else (Returned tt, st, []).
Proof.
  unfold onMessage, mbind at 1, M_bind at 1, getState.
  destruct (ignoresMessage st ev) eqn:Hignore; [done |].
  destruct (_ || _); [| done].
  unfold mbind, M_bind.
  rewrite startVerification_run, (ignoresMessage_declines _ _ Hignore).
  done.
Qed.

Lemma soleUnfinished_begin (st : State) (sas : SASVerification) :
  declines st = false → soleUnfinished st →
  soleUnfinished
    (mkState (_isMasterKeyTrusted st) (Some (length (sasHeap st)))
       (sasHeap st ++ [sas])).
Proof.
  intros Hfree Hinv ref old Hlookup Hun. cbn in *.
  destruct (decide (ref < length (sasHeap st))) as [Hlt|Hge].
  - rewrite lookup_app_l in Hlookup by done.
    specialize (Hinv ref old Hlookup Hun).
    unfold declines, sasInProgress in Hfree. rewrite Hinv in Hfree.
    cbn in Hfree. rewrite Hlookup, Hun in Hfree. done.
  - apply lookup_lt_Some in Hlookup as Hlen.
    rewrite length_app in Hlen. cbn in Hlen. f_equal. lia.
Qed.

Lemma soleUnfinished_step (st st' : State) :
  Step st st' → soleUnfinished st → soleUnfinished st'.
Proof.
  intros Hstep Hinv. destruct Hstep as
    [ev st|userId msg st|ref st|st|st|st|device st|userId st|userId st].
  - rewrite onMessage_run.
    destruct (ignoresMessage st ev) eqn:Hignore; [done |].
    destruct (_ || _); [| done].
    apply soleUnfinished_begin; eauto using ignoresMessage_declines.
  - rewrite startVerification_run.
    destruct (declines st) eqn:Hfree; [done |].
    by apply soleUnfinished_begin.
  - intros j sas Hlookup Hun. cbn in *.
    destruct (decide (ref = j)) as [->|Hne].
    + rewrite list_lookup_alter_eq in Hlookup.
      destruct (sasHeap st !! j); cbn in Hlookup; [| done].
      injection Hlookup as <-. done.
    + rewrite list_lookup_alter_ne in Hlookup by done. eauto.
  - rewrite load_run. cbn.
    destruct (verifyMSKFrom4S_sessions false st) as [Hcur Hheap].
    intros j sas. rewrite Hcur, Hheap. apply Hinv.
  - destruct (start_sessions st) as [Hcur Hheap].
    intros j sas. rewrite Hcur, Hheap. apply Hinv.
  - by rewrite readOnly_signOwnDevice.
  - by rewrite readOnly_signDevice.
  - by rewrite readOnly_signUser.
  - by rewrite readOnly_getUserTrust.
Qed.

Lemma reachable_soleUnfinished (st : State) :
  Reachable st → soleUnfinished st.
Proof.
  induction 1 as [|st st' _ IH Hstep]; [by intros ref sas |].
  eauto using soleUnfinished_step.
Qed.

(** C7 (as the code has it). An inbound message is ignored when a session
    is in progress and either has not finished or has the message's
    transaction id as its channel id.  Otherwise a request or start
    message begins a new session bound to the sender and the message,
    which replaces the previous one, finished by then; any other message
    does nothing.  In every reachable state at most one session is
    unfinished. *)
Theorem message_admission :
  (∀ st ev,
     ignoresMessage st ev = true ↔
     ∃ sas, sasInProgress st = Some sas
            ∧ (finished sas = false ∨ channel_id sas = transaction_id ev))
  ∧ (∀ st ev, ignoresMessage st ev = true →
              onMessage ev st = (Returned tt, st, []))
  ∧ (∀ st ev,
       ignoresMessage st ev = false →
       ev_type ev = Request ∨ ev_type ev = Start →
       let st' := stateAfter (onMessage ev st) in
       sasHeap st' = sasHeap st ++ [sessionBegunWith (sender ev) (Some ev)]
       ∧ sasInProgress st' = Some (sessionBegunWith (sender ev) (Some ev))
       ∧ (∀ old, sasInProgress st = Some old → finished old = true))
  ∧ (∀ st ev,
       ignoresMessage st ev = false →
       ev_type ev ≠ Request → ev_type ev ≠ Start →
       onMessage ev st = (Returned tt, st, []))
  ∧ (∀ st, Reachable st →
           ∀ i j si sj,
             sasHeap st !! i = Some si → sasHeap st !! j = Some sj →
             finished si = false → finished sj = false → i = j).
Proof.
  split; [| split; [| split; [| split]]].
  - intros st ev. unfold ignoresMessage.
    destruct (sasInProgress st) as [sas|];
      [| split; [done | by intros (? & ? & ?)]].
    rewrite orb_true_iff, negb_true_iff, bool_decide_eq_true. split.
    + intros Hcases. by exists sas.
    + by intros (? & [= <-] & Hcases).
  - intros st ev Hignore. by rewrite onMessage_run, Hignore.
  - intros st ev Hignore Htype. rewrite onMessage_run, Hignore.
    assert (bool_decide (ev_type ev = Request)
            || bool_decide (ev_type ev = Start) = true) as ->.
    { destruct Htype as [-> | ->]; by cbn. }
    cbn. split; [done |]. split.
    + unfold sasInProgress. cbn.
      by rewrite lookup_app_r, Nat.sub_diag by done.
    + intros old Hold. unfold ignoresMessage in Hignore.
      rewrite Hold in Hignore. by destruct (finished old).
  - intros st ev Hignore Hreq Hstart. rewrite onMessage_run, Hignore.
    by rewrite !bool_decide_eq_false_2.
  - intros st Hreach i j si sj Hi Hj Hui Huj.
    pose proof (reachable_soleUnfinished st Hreach) as Hinv.
    pose proof (Hinv i si Hi Hui) as Hcur.
    rewrite (Hinv j sj Hj Huj) in Hcur. by injection Hcur.
Qed.

End SessionAdmission.

Section SessionAdmissionExamples.
Import CrossSigning Spec Demo.

Example first_message_begins_session :
  @onMessage healthy startT1 initialState
  = (Returned tt,
     mkState false (Some 0) [mkSAS alice (Some startT1) "t1" false],
     [StartSAS 0]).
Proof. vm_compute. reflexivity. Qed.

Example competing_message_is_ignored :
  @onMessage healthy requestT2 duringT1 = (Returned tt, duringT1, []).
Proof. vm_compute. reflexivity. Qed.

Example next_transaction_replaces_finished_session :
  stateAfter (@onMessage healthy requestT2 afterT1)
  = mkState false (Some 1)
      [mkSAS alice (Some startT1) "t1" true;
       mkSAS alice (Some requestT2) "t2" false].
Proof. vm_compute. reflexivity. Qed.

End SessionAdmissionExamples.

Lemma message_admission_witness :
  CrossSigning.sasHeap
    (CrossSigning.stateAfter
       (@CrossSigning.onMessage Demo.healthy Demo.requestT2 Demo.afterT1))
  = (CrossSigning.sasHeap Demo.afterT1
     ++ [@Spec.sessionBegunWith Demo.healthy Demo.alice (Some Demo.requestT2)])
  ∧ @CrossSigning.onMessage Demo.healthy Demo.requestT2 Demo.duringT1
    = (CrossSigning.Returned tt, Demo.duringT1, []).
Proof.
  pose proof (@message_admission Demo.healthy)
    as (_ & Hignored & Hbegun & _ & _).
  split.
  - apply (Hbegun Demo.afterT1 Demo.requestT2).
    + vm_compute. reflexivity.
    + left. reflexivity.
  - apply (Hignored Demo.duringT1 Demo.requestT2).
    vm_compute. reflexivity.
Defined.

(** C7 (as stated) fails: the session of transaction ["t1"] has finished, so
    no unfinished session with another channel id is in the way, and the
    message is a start message; yet it is ignored, because it carries the
    finished session's own transaction id. *)
Lemma finished_session_transaction_is_ignored :
  @CrossSigning.Reachable Demo.healthy Demo.afterT1
  ∧ ¬ (∃ sas, CrossSigning.sasInProgress Demo.afterT1 = Some sas
              ∧ CrossSigning.finished sas = false
              ∧ CrossSigning.channel_id sas
                ≠ CrossSigning.transaction_id Demo.startT1)
  ∧ CrossSigning.ev_type Demo.startT1 = CrossSigning.Start
  ∧ @CrossSigning.onMessage Demo.healthy Demo.startT1 Demo.afterT1
    = (CrossSigning.Returned tt, Demo.afterT1, [])
  ∧ CrossSigning.sasHeap Demo.afterT1
    = [CrossSigning.mkSAS Demo.alice (Some Demo.startT1) "t1" true].
Proof.
  split; [| split; [| split; [| split]]].
  - apply (CrossSigning.reachable_step Demo.duringT1).
    + apply (CrossSigning.reachable_step CrossSigning.initialState).
      * constructor.
      * apply (@CrossSigning.step_message Demo.healthy Demo.startT1).
    + apply (@CrossSigning.step_finish Demo.healthy 0).
  - intros (sas & Hsas & Hunfinished & _).
    vm_compute in Hsas. injection Hsas as <-. discriminate.
  - reflexivity.
  - vm_compute. reflexivity.
  - vm_compute. reflexivity.
Qed.

Section ResilientStore.
Import SessionStore.
Context {V : Type} {host : Host V}.

Lemma getItem_elem (ls : DOMStorage) (k v : string) :
  getItem ls k = Some v → (k, v) ∈ ls.
Proof.
  induction ls as [|[k' v'] ls IH]; cbn; [done |].
  case_bool_decide as Hk.
  - intros [= ->]. subst k'. left.
  - intros Hrest. right. auto.
Qed.

Lemma getItem_present (ls : DOMStorage) (k v : string) :
  (k, v) ∈ ls → is_Some (getItem ls k).
Proof.
  induction ls as [|[k' v'] ls IH]; cbn.
  - by intros ?%elem_of_nil.
  - case_bool_decide as Hk; [by eexists |].
    intros [[= -> ->] | Hin]%elem_of_cons; [done | auto].
Qed.

Lemma getItem_setItem (ls : DOMStorage) (k v : string) :
  getItem (setItem ls k v) k = Some v.
Proof.
  induction ls as [|[k' v'] ls IH]; cbn.
  - by rewrite bool_decide_eq_true_2.
  - case_bool_decide as Hk; cbn.
    + by rewrite bool_decide_eq_true_2.
    + by rewrite bool_decide_eq_false_2.
Qed.

Lemma getItem_removeItem_ne (ls : DOMStorage) (k k' : string) :
  k ≠ k' → getItem (removeItem ls k') k = getItem ls k.
Proof.
  intros Hne. induction ls as [|[k0 v0] ls IH]; cbn; [done |].
  destruct (decide (k0 = k')) as [->|Hkept].
  - rewrite (bool_decide_eq_true_2 (k' = k')) by done. cbn.
    by rewrite bool_decide_eq_false_2.
  - rewrite (bool_decide_eq_false_2 (k0 = k')) by done. cbn.
    by destruct (bool_decide (k0 = k)).
Qed.

Lemma getItem_removeItem (ls : DOMStorage) (k : string) :
  getItem (removeItem ls k) k = None.
Proof.
  induction ls as [|[k0 v0] ls IH]; cbn; [done |].
  destruct (decide (k0 = k)) as [->|Hkept].
  - by rewrite bool_decide_eq_true_2.
  - rewrite bool_decide_eq_false_2 by done. cbn.
    by rewrite bool_decide_eq_false_2.
Qed.

(** *** Restore *)

Lemma restoreLoop_frame (ls : DOMStorage) (n i : nat)
    (store : gmap string V) (success : bool) (K : string) (v : V) :
  store !! K = Some v → (restoreLoop ls n i store success).1 !! K = Some v.
Proof.
  revert i store success.
  induction n as [|n IH]; intros i store success HK; cbn; [done |].
  destruct (ls_key ls i) as [lsKey|]; [| done].
  destruct (JS.startsWith prefix lsKey); [| by apply IH].
  destruct (getItem ls lsKey ≫= parse) as [value|]; [| done].
  unfold Store_getKey, Store_put.
  destruct (store !! JS.substr _ lsKey) eqn:Hkey; cbn.
  - rewrite bool_decide_eq_true_2 by done. by apply IH.
  - rewrite bool_decide_eq_false_2 by done. cbn. apply IH.
    rewrite lookup_insert_ne; [done |]. congruence.
Qed.

Lemma restoreLoop_result (ls : DOMStorage) (n i : nat)
    (store : gmap string V) (success b : bool) :
  (restoreLoop ls n i store success).2 = Some b →
  (b = true ↔
   success = true
   ∨ ∃ k, store !! k = None
          ∧ is_Some ((restoreLoop ls n i store success).1 !! k)).
Proof.
  revert i store success.
  induction n as [|n IH]; intros i store success; cbn.
  - intros [= <-]. split; [by left |].
    intros [? | (k & Hnone & Hsome)]; [done |].
    rewrite Hnone in Hsome. by destruct Hsome.
  - destruct (ls_key ls i) as [lsKey|]; [| done].
    destruct (JS.startsWith prefix lsKey); [| by apply IH].
    destruct (getItem ls lsKey ≫= parse) as [value|]; [| done].
    unfold Store_getKey, Store_put.
    destruct (store !! JS.substr _ lsKey) eqn:Hkey; cbn.
    + rewrite bool_decide_eq_true_2 by done. by apply IH.
    + rewrite bool_decide_eq_false_2 by done. cbn. intros Hb.
      apply IH in Hb as ->. split; [| auto]. intros _. right.
      eexists. split; [exact Hkey |]. eexists.
      apply restoreLoop_frame, lookup_insert_eq.
Qed.

Lemma restoreLoop_provenance (ls : DOMStorage) (n i : nat)
    (store : gmap string V) (success : bool) (k : string) (v : V) :
  store !! k = None →
  (restoreLoop ls n i store success).1 !! k = Some v →
  ∃ lsKey raw,
    getItem ls lsKey = Some raw
    ∧ JS.startsWith prefix lsKey = true
    ∧ k = JS.substr (String.length lsPrefix) lsKey
    ∧ parse raw = Some v.
Proof.
  revert i store success.
  induction n as [|n IH]; intros i store success Hnone; cbn.
  - by rewrite Hnone.
  - destruct (ls_key ls i) as [lsKey|]; [| by cbn; rewrite Hnone].
    destruct (JS.startsWith prefix lsKey) eqn:Hprefix; [| by apply IH].
    destruct (getItem ls lsKey) as [raw|] eqn:Hraw; cbn;
      [| by rewrite Hnone].
    destruct (parse raw) as [value|] eqn:Hparse; [| by cbn; rewrite Hnone].
    unfold Store_getKey, Store_put.
    destruct (store !! JS.substr _ lsKey) eqn:Hkey; cbn.
    + rewrite bool_decide_eq_true_2 by done. by apply IH.
    + rewrite bool_decide_eq_false_2 by done. cbn.
      destruct (decide (k = JS.substr (String.length lsPrefix) lsKey))
        as [->|Hne].
      * rewrite (restoreLoop_frame _ _ _ _ _ _ value)
          by apply lookup_insert_eq.
        intros [= <-]. by exists lsKey, raw.
      * apply IH. by rewrite lookup_insert_ne.
Qed.

Lemma restoreLoop_returns (ls : DOMStorage) (n i : nat)
    (store : gmap string V) (success : bool) :
  i + n = length ls →
  (∀ lsKey raw, (lsKey, raw) ∈ ls → JS.startsWith prefix lsKey = true →
                is_Some (parse raw)) →
  is_Some (restoreLoop ls n i store success).2.
Proof.
  intros Hlen Hparse. revert i store success Hlen.
  induction n as [|n IH]; intros i store success Hlen; cbn; [by eexists |].
  unfold ls_key.
  destruct (lookup_lt_is_Some_2 ls i) as [[lsKey raw0] Hentry]; [lia |].
  rewrite Hentry. cbn.
  destruct (JS.startsWith prefix lsKey) eqn:Hprefix; [| apply IH; lia].
  destruct (getItem_present ls lsKey raw0) as [raw Hraw].
  { eapply list_elem_of_lookup_2, Hentry. }
  rewrite Hraw. cbn.
  destruct (Hparse lsKey raw (getItem_elem _ _ _ Hraw) Hprefix)
    as [value ->].
  destruct (negb _); apply IH; lia.
Qed.

(** C5. The restore procedure leaves every entry of the primary store as
    it was, whatever the backup holds for its key; what it adds are
    entries for keys the primary store did not hold, each parsed from a
    backup entry under the mirror prefix; and it returns [true] exactly
    when it added an entry.  It returns whenever the mirrored texts
    parse, and it does not touch the backup. *)
Theorem restore_never_overwrites (m : Media V) :
  let after := (tryRestoreE2EEIdentityFromLocalStorage m).1 in
  let returned := (tryRestoreE2EEIdentityFromLocalStorage m).2 in
  (∀ K v, _sessionStore m !! K = Some v → _sessionStore after !! K = Some v)
  ∧ (∀ k v, _sessionStore m !! k = None →
            _sessionStore after !! k = Some v →
            ∃ lsKey raw,
              getItem (_localStorage m) lsKey = Some raw
              ∧ JS.startsWith prefix lsKey = true
              ∧ k = JS.substr (String.length lsPrefix) lsKey
              ∧ parse raw = Some v)
  ∧ (∀ b, returned = Some b →
          (b = true ↔
           ∃ k, _sessionStore m !! k = None
                ∧ is_Some (_sessionStore after !! k)))
  ∧ ((∀ lsKey raw, (lsKey, raw) ∈ _localStorage m →
                   JS.startsWith prefix lsKey = true →
                   is_Some (parse raw)) →
     is_Some returned)
  ∧ _localStorage after = _localStorage m.
Proof.
  cbn. split; [| split; [| split; [| split]]].
  - intros K v. apply restoreLoop_frame.
  - intros k v. apply restoreLoop_provenance.
  - intros b Hb. apply restoreLoop_result in Hb as ->.
    split; [by intros [? | ?] | auto].
  - apply restoreLoop_returns. unfold ls_length. lia.
  - done.
Qed.

(** *** Removal *)

Lemma mirror_key_differs (key : string) :
  lsKeyFor key ≠ (databaseName +:+ key)%string.
Proof.
  unfold lsKeyFor. generalize databaseName as db.
  induction db as [|c db IH]; cbn.
  - intros Heq. apply (f_equal String.length) in Heq.
    simpl in Heq. lia.
  - intros [= Heq]. auto.
Qed.

(** After [set] and [remove] of a key under the secret prefix, the mirror
    still holds the entry [set] wrote: [remove] deletes
    [databaseName + key], not the derived key. *)
Lemma remove_misses_mirror (m : Media V) (key : string) (value : V)
    (lsValue : string) :
  JS.startsWith SESSION_E2EE_KEY_PREFIX key = true →
  stringify value = Some lsValue →
  getItem (_localStorage (remove (set m key value) key)) (lsKeyFor key)
  = Some lsValue
  ∧ get (remove (set m key value) key) key = None.
Proof.
  intros Hsecret Hstr. unfold remove, set, get, _writeKeyToLocalStorage.
  cbn [_localStorage _sessionStore]. rewrite Hsecret, Hstr. split.
  - rewrite getItem_removeItem_ne by apply mirror_key_differs.
    apply getItem_setItem.
  - apply lookup_delete_eq.
Qed.

End ResilientStore.

Section ResilientStoreExamples.
Import SessionStore.

Example restore_keeps_old_and_repairs_lost :
  @tryRestoreE2EEIdentityFromLocalStorage string Demo.host Demo.seededMedia
  = (mkMedia {[ "e2ee:K" := "old"; "e2ee:lost" := "found" ]}%string
       (_localStorage Demo.seededMedia), Some true).
Proof. vm_compute. reflexivity. Qed.

Example restore_of_nothing_returns_false :
  @tryRestoreE2EEIdentityFromLocalStorage string Demo.host
    (mkMedia {[ "e2ee:K" := "old" ]} [("db.session.e2ee:K", "new")])%string
  = (mkMedia {[ "e2ee:K" := "old" ]} [("db.session.e2ee:K", "new")],
     Some false)%string.
Proof. vm_compute. reflexivity. Qed.

Example restore_throws_on_unparsable_mirror :
  (@tryRestoreE2EEIdentityFromLocalStorage string Demo.host
     (mkMedia ∅ [("db.session.e2ee:K", "{")])%string).2 = None.
Proof. vm_compute. reflexivity. Qed.

Example set_mirrors_secret_keys_only :
  _localStorage
    (@set string Demo.host
       (@set string Demo.host Demo.emptyMedia "e2ee:K" "v") "sync" "t")%string
  = [("db.session.e2ee:K", "v")]%string.
Proof. vm_compute. reflexivity. Qed.

End ResilientStoreExamples.

Lemma restore_never_overwrites_witness :
  SessionStore._sessionStore
    (@SessionStore.tryRestoreE2EEIdentityFromLocalStorage string Demo.host
       Demo.seededMedia).1 !! "e2ee:K"%string = Some "old"%string
  ∧ is_Some
      (@SessionStore.tryRestoreE2EEIdentityFromLocalStorage string Demo.host
         Demo.seededMedia).2.
Proof.
  pose proof (@restore_never_overwrites string Demo.host Demo.seededMedia)
    as (Hframe & _ & _ & Hreturns & _).
  split.
  - apply Hframe. vm_compute. reflexivity.
  - apply Hreturns. intros lsKey raw Hin Hprefix.
    repeat (apply elem_of_cons in Hin as [[= -> ->] | Hin];
            [first [by eexists | vm_compute in Hprefix; discriminate] |]).
    by apply elem_of_nil in Hin.
Defined.

(** C6 at a concrete key: the store over database ["db"] sets and then
    removes ["e2ee:K"]; the primary entry is gone, the mirrored entry
    ["db.session.e2ee:K"] is still there. *)
Theorem remove_leaves_mirrored_entry :
  let m := @SessionStore.remove string Demo.host
             (@SessionStore.set string Demo.host Demo.emptyMedia
                "e2ee:K" "v") "e2ee:K" in
  JS.startsWith (@SessionStore.SESSION_E2EE_KEY_PREFIX string Demo.host)
    "e2ee:K" = true
  ∧ @SessionStore.lsKeyFor string Demo.host "e2ee:K"
    = "db.session.e2ee:K"%string
  ∧ SessionStore.get m "e2ee:K" = None
  ∧ SessionStore.getItem (SessionStore._localStorage m)
      (@SessionStore.lsKeyFor string Demo.host "e2ee:K") = Some "v"%string.
Proof. vm_compute. auto. Qed.

(** * Further properties *)

Section KeyExtraction.
Import CrossSigning Spec Derived.

Lemma KeyUsage_str_inj (u u' : KeyUsage) :
  KeyUsage_str u = KeyUsage_str u' → u = u'.
Proof. by destruct u, u'. Qed.

(** X1. [getKeyUsage] reads the usage back exactly from the one-element
    arrays that name it. *)
Theorem getKeyUsage_exactly (k : CrossSigningKey) (u : KeyUsage) :
  getKeyUsage k = Some u ↔ usage k = [KeyUsage_str u].
Proof.
  unfold getKeyUsage. split.
  - destruct (usage k) as [|s [|s' rest]]; [done | | done].
    repeat case_bool_decide; cbn; intros [= <-]; by subst.
  - intros ->. by destruct u.
Qed.

Lemma elem_of_List_filter {A} (f : A → bool) (l : list A) (x : A) :
  x ∈ List.filter f l ↔ x ∈ l ∧ f x = true.
Proof. rewrite !list_elem_of_In. apply filter_In. Qed.

Lemma elem_of_ed25519KeyIds (k : CrossSigningKey) (keyId : string) :
  keyId ∈ ed25519KeyIds k ↔
  JS.startsWith prefix keyId = true ∧ is_Some (keys k !! keyId).
Proof.
  unfold ed25519KeyIds. rewrite elem_of_List_filter, list_elem_of_fmap.
  split.
  - intros [([k' v] & -> & Hin) Hp]. split; [done |].
    apply elem_of_map_to_list in Hin. by eexists.
  - intros [Hp [v Hv]]. split; [| done].
    exists (keyId, v). split; [done |]. by apply elem_of_map_to_list.
Qed.

Lemma NoDup_List_filter {A} (f : A → bool) (l : list A) :
  NoDup l → NoDup (List.filter f l).
Proof.
  induction 1 as [|x l Hx Hl IH]; cbn; [constructor |].
  destruct (f x); [| done]. constructor; [| done].
  rewrite elem_of_List_filter. tauto.
Qed.

Lemma NoDup_ed25519KeyIds (k : CrossSigningKey) : NoDup (ed25519KeyIds k).
Proof. apply NoDup_List_filter, NoDup_fst_map_to_list. Qed.

(** X2. [getKeyEd25519Key] returns a public key exactly when the key has
    one single ed25519 key id, and then it is the key stored under it. *)
Theorem getKeyEd25519Key_sole_entry (k : CrossSigningKey) (pub : string) :
  getKeyEd25519Key k = Some pub ↔
  ∃ keyId, JS.startsWith prefix keyId = true
           ∧ keys k !! keyId = Some pub
           ∧ ∀ other, JS.startsWith prefix other = true →
                      is_Some (keys k !! other) → other = keyId.
Proof.
  unfold getKeyEd25519Key. split.
  - destruct (ed25519KeyIds k) as [|keyId [|? ?]] eqn:Hids; [done | | done].
    intros Hpub. exists keyId.
    assert (∀ x, x ∈ ed25519KeyIds k ↔ x = keyId) as Hsole.
    { intros x. rewrite Hids. apply list_elem_of_singleton. }
    split; [| split; [done |]].
    + by apply (elem_of_ed25519KeyIds k), Hsole.
    + intros other Hp Hin. by apply Hsole, elem_of_ed25519KeyIds.
  - intros (keyId & Hp & Hpub & Hsole).
    pose proof (NoDup_ed25519KeyIds k) as Hnodup.
    assert (∀ x, x ∈ ed25519KeyIds k → x = keyId) as Hall.
    { intros x [? ?]%elem_of_ed25519KeyIds. auto. }
    assert (keyId ∈ ed25519KeyIds k) as Hin.
    { apply elem_of_ed25519KeyIds. split; [done | by eexists]. }
    destruct (ed25519KeyIds k) as [|x [|y rest]].
    + by apply elem_of_nil in Hin.
    + rewrite (Hall x) by left. done.
    + exfalso. apply NoDup_cons in Hnodup as [Hx _]. apply Hx.
      rewrite (Hall x), (Hall y) by (try left; right; left). left.
Qed.

End KeyExtraction.

Section SelfTrustMore.
Import CrossSigning Spec Derived.
Context {env : Collaborators}.

(** X3. The check answers [Valid] exactly when the Secret Reader holds a
    non-empty master secret, Olm derives a public key from the decoded
    seed, a master key is published for the own user, and that key's sole
    ed25519 entry is the derived key, which is not empty.  Afterwards the
    own master key is trusted exactly when the answer was [Valid], or when
    it was trusted before and the check stopped without a verdict on the
    keys: at a missing seed, at a missing published key, or rejecting. *)
Theorem self_trust_exactly_on_match (allowNetwork : bool) (st : State) :
  let run := verifyMSKFrom4S allowNetwork st in
  (result run = Returned MSKValid ↔
   ∃ seedStr derived pmk,
     readSecret "m.cross_signing.master" = Some seedStr
     ∧ seedStr ≠ ""%string
     ∧ init_with_seed (base64_decode seedStr) = Some derived
     ∧ getCrossSigningKeyForUser ownUserId Master allowNetwork = Some pmk
     ∧ getKeyEd25519Key pmk = Some derived
     ∧ derived ≠ ""%string)
  ∧ (_isMasterKeyTrusted (stateAfter run) = true ↔
     result run = Returned MSKValid
     ∨ (_isMasterKeyTrusted st = true
        ∧ (result run = Returned NoPrivKey
           ∨ result run = Returned NoPubKey
           ∨ result run = Rejected))).
Proof.
  cbn zeta. rewrite verifyMSKFrom4S_run. cbn zeta.
  destruct (readSecret _) as [[|c seedStr]|]; cbn.
  - split.
    + split; [done |]. by intros (? & ? & ? & [= <-] & ? & _).
    + split; [auto |]. by intros [? | [? _]].
  - destruct (init_with_seed _) as [derived|] eqn:Hderived; cbn.
    + destruct (getCrossSigningKeyForUser ownUserId Master allowNetwork)
        as [pmk|]; cbn.
      * destruct (getKeyEd25519Key pmk) as [pub|] eqn:Hpub; cbn.
        -- case_bool_decide as Heq.
           ++ injection Heq as ->. destruct derived as [|d derived]; cbn.
              ** split.
                 --- split; [done |].
                     intros (? & ? & ? & [= <-] & _ & Hd & [= <-] & Hp & Hne).
                     congruence.
                 --- split; [done |]. by intros [? | [_ [? | [? | ?]]]].
              ** split; [| split; auto]. split; [| done]. intros _.
                 by exists (String c seedStr), (String d derived), pmk.
           ++ rewrite andb_false_r. cbn. split.
              ** split; [done |].
                 intros (? & ? & ? & [= <-] & _ & Hd & [= <-] & Hp & _).
                 congruence.
              ** split; [done |]. by intros [? | [_ [? | [? | ?]]]].
        -- split.
           ++ split; [done |].
              intros (? & ? & ? & [= <-] & _ & _ & [= <-] & ? & _).
              congruence.
           ++ split; [done |]. by intros [? | [_ [? | [? | ?]]]].
      * split.
        -- split; [done |]. by intros (? & ? & ? & _ & _ & _ & ? & _).
        -- split; [auto |]. by intros [? | [? _]].
    + split.
      * split; [done |]. intros (? & ? & ? & [= <-] & _ & Hd & _). congruence.
      * split; [auto |]. by intros [? | [? _]].
  - split.
    + split; [done |]. by intros (? & ? & ? & ? & _).
    + split; [auto |]. by intros [? | [? _]].
Qed.

(** X4. [load] checks offline: it never hands the homeserver API to a
    collaborator, and it signs and uploads nothing; what it reads is the
    master secret, and at most the locally known own master key. *)
Theorem load_stays_offline (st : State) :
  Forall (λ e, isNetworkCall e = false ∧ isSigning e = false)
    (effects (load st))
  ∧ (effects (load st) = [ReadSecret "m.cross_signing.master"]
     ∨ effects (load st)
       = [ReadSecret "m.cross_signing.master";
          QueryCrossSigningKey ownUserId Master false]).
Proof.
  rewrite load_run, verifyMSKFrom4S_run. cbn zeta.
  destruct (readSecret _) as [seedStr|]; [destruct (JS.truthy seedStr) |];
    [destruct (init_with_seed _) as [derived|] | |];
    [destruct (getCrossSigningKeyForUser ownUserId Master false) | | |];
    cbn; (split; [repeat constructor | auto]).
Qed.

Lemma start_run (st : State) :
  start st =
  if _isMasterKeyTrusted st then (Returned tt, st, [])
  else (match result (verifyMSKFrom4S true st) with
        | Returned _ => Returned tt
        | Rejected => Rejected
        end,
        stateAfter (verifyMSKFrom4S true st),
        effects (verifyMSKFrom4S true st)).
Proof.
  unfold start, mbind, M_bind, getState, result, stateAfter, effects. cbn.
  destruct (_isMasterKeyTrusted st); cbn; [done |].
  destruct (verifyMSKFrom4S true st) as [[[v|] st'] t]; cbn; [| done].
  by rewrite app_nil_r.
Qed.

(** X5. [start] on an instance whose master key is trusted does nothing at
    all; on any other it runs the check with the network allowed, and the
    master key is trusted afterwards exactly when it was before or that
    check answers [Valid]. *)
Theorem start_checks_only_when_untrusted (st : State) :
  (_isMasterKeyTrusted st = true → start st = (Returned tt, st, []))
  ∧ (_isMasterKeyTrusted st = false →
     effects (start st) = effects (verifyMSKFrom4S true st)
     ∧ stateAfter (start st) = stateAfter (verifyMSKFrom4S true st))
  ∧ (_isMasterKeyTrusted (stateAfter (start st)) = true ↔
     _isMasterKeyTrusted st = true
     ∨ result (verifyMSKFrom4S true st) = Returned MSKValid).
Proof.
  rewrite start_run.
  destruct (_isMasterKeyTrusted st) eqn:Htrusted; cbn.
  - split; [done |]. split; [done |]. rewrite Htrusted. split; auto.
  - split; [done |]. split; [done |].
    rewrite verifyMSKFrom4S_run. cbn zeta.
    destruct (readSecret _) as [seedStr|]; [destruct (JS.truthy seedStr) |];
      [destruct (init_with_seed _) as [derived|] | |];
      [destruct (getCrossSigningKeyForUser ownUserId Master true) | | |];
      cbn; [destruct (_ && _); cbn | | | |];
      rewrite ?Htrusted; split; auto; by intros [? | ?].
Qed.

End SelfTrustMore.

Section InstanceInvariants.
Import CrossSigning Spec Derived.
Context {env : Collaborators}.


Lemma verify_trust_origin (allowNetwork : bool) (st : State) :
  _isMasterKeyTrusted (stateAfter (verifyMSKFrom4S allowNetwork st)) = true →
  _isMasterKeyTrusted st = true ∨ masterKeyMatches.
Proof.
  rewrite verifyMSKFrom4S_run. cbn zeta.
  destruct (readSecret _) as [[|c seedStr]|] eqn:Hsecret; cbn; auto.
  destruct (init_with_seed _) as [derived|] eqn:Hderived; cbn; auto.
  destruct (getCrossSigningKeyForUser ownUserId Master allowNetwork)
    as [pmk|] eqn:Hpub; cbn; auto.
  intros [Hpresent Hmatch%bool_decide_eq_true]%andb_true_iff. right.
  exists allowNetwork, (String c seedStr), derived, pmk.
  repeat (split; [done |]). intros ->. by rewrite Hmatch in Hpresent.
Qed.

Lemma step_sessions_or_trust (st st' : State) :
  Step st st' →
  (_isMasterKeyTrusted st' = _isMasterKeyTrusted st
   ∨ ∃ allowNetwork, st' = stateAfter (verifyMSKFrom4S allowNetwork st)).
Proof.
  intros Hstep. destruct Hstep as
    [ev st|userId msg st|ref st|st|st|st|device st|userId st|userId st].
  - left. rewrite onMessage_run.
    destruct (ignoresMessage st ev); [done |]. by destruct (_ || _).
  - left. rewrite startVerification_run. by destruct (declines st).
  - by left.
  - right. exists false. by rewrite load_run.
  - rewrite start_run. destruct (_isMasterKeyTrusted st) eqn:Ht.
    + by left.
    + right. by exists true.
  - left. by rewrite readOnly_signOwnDevice.
  - left. by rewrite readOnly_signDevice.
  - left. by rewrite readOnly_signUser.
  - left. by rewrite readOnly_getUserTrust.
Qed.

Lemma step_trust_origin (st st' : State) :
  Step st st' → _isMasterKeyTrusted st' = true →
  _isMasterKeyTrusted st = true ∨ masterKeyMatches.
Proof.
  intros Hstep Htrusted.
  destruct (step_sessions_or_trust st st' Hstep) as [<- | [a ->]];
    [by left | by eapply verify_trust_origin].
Qed.

Lemma latestInProgress_begin (st : State) (sas : SASVerification) :
  latestInProgress
    (mkState (_isMasterKeyTrusted st) (Some (length (sasHeap st)))
       (sasHeap st ++ [sas])).
Proof.
  unfold latestInProgress. cbn. rewrite length_app. cbn.
  destruct (sasHeap st); cbn; [done |]. f_equal. lia.
Qed.

Lemma latestInProgress_step (st st' : State) :
  Step st st' → latestInProgress st → latestInProgress st'.
Proof.
  intros Hstep Hinv. destruct Hstep as
    [ev st|userId msg st|ref st|st|st|st|device st|userId st|userId st].
  - rewrite onMessage_run.
    destruct (ignoresMessage st ev); [done |].
    destruct (_ || _); [apply latestInProgress_begin | done].
  - rewrite startVerification_run.
    destruct (declines st); [done | apply latestInProgress_begin].
  - unfold latestInProgress, finishSession in *. cbn. rewrite Hinv.
    rewrite length_alter. by destruct (sasHeap st) as [|? ?], ref.
  - rewrite load_run. cbn.
    destruct (verifyMSKFrom4S_sessions false st) as [Hcur Hheap].
    unfold latestInProgress. by rewrite Hcur, Hheap.
  - destruct (start_sessions st) as [Hcur Hheap].
    unfold latestInProgress. by rewrite Hcur, Hheap.
  - by rewrite readOnly_signOwnDevice.
  - by rewrite readOnly_signDevice.
  - by rewrite readOnly_signUser.
  - by rewrite readOnly_getUserTrust.
Qed.

(** X7. In every reachable state the session in progress is the one that
    was created last (and there is none exactly when none was ever
    created); sessions are never dropped, so each step leaves the sessions
    created so far in place, in order. *)
Theorem session_in_progress_is_latest (st : State) :
  Reachable st →
  latestInProgress st
  ∧ (∀ st', Step st st' →
            ∀ ref sas, sasHeap st !! ref = Some sas →
                       ∃ sas', sasHeap st' !! ref = Some sas'
                               ∧ otherUserId sas' = otherUserId sas
                               ∧ startingMessage sas' = startingMessage sas
                               ∧ channel_id sas' = channel_id sas).
Proof.
  intros Hreach. split.
  - induction Hreach as [|st st' _ IH Hstep]; [done |].
    eauto using latestInProgress_step.
  - clear Hreach.
    intros st' Hstep. destruct Hstep as
      [ev st|userId msg st|i st|st|st|st|device st|userId st|userId st];
      intros ref sas Hsas.
    + rewrite onMessage_run.
      destruct (ignoresMessage st ev); [eauto |].
      destruct (_ || _); [| eauto]. cbn.
      exists sas. by rewrite lookup_app_l by eauto using lookup_lt_Some.
    + rewrite startVerification_run.
      destruct (declines st); [eauto |]. cbn.
      exists sas. by rewrite lookup_app_l by eauto using lookup_lt_Some.
    + cbn. rewrite list_lookup_alter, Hsas.
      case_decide as Hi; [subst i; rewrite Hsas | ]; cbn; eauto.
    + rewrite load_run. cbn.
      destruct (verifyMSKFrom4S_sessions false st) as [_ ->]. eauto.
    + destruct (start_sessions st) as [_ ->]. eauto.
    + rewrite readOnly_signOwnDevice. eauto.
    + rewrite readOnly_signDevice. eauto.
    + rewrite readOnly_signUser. eauto.
    + rewrite readOnly_getUserTrust. eauto.
Qed.

(** X23. [startVerification] declines, returning [undefined] and changing
    nothing, exactly when a session is in progress and has not finished,
    whatever the user and the message are; otherwise it begins a session
    with the given user from the given message, which becomes the session
    in progress. *)
Theorem startVerification_declines_exactly (userId : string)
    (msg : option UnencryptedEvent) (st : State) :
  (result (startVerification userId msg st) = Returned None ↔
   ∃ sas, sasInProgress st = Some sas ∧ finished sas = false)
  ∧ (result (startVerification userId msg st) = Returned None ∧
     startVerification userId msg st = (Returned None, st, [])
     ∨ result (startVerification userId msg st)
       = Returned (Some (length (sasHeap st)))
       ∧ sasHeap (stateAfter (startVerification userId msg st))
         = sasHeap st ++ [sessionBegunWith userId msg]
       ∧ sasInProgress (stateAfter (startVerification userId msg st))
         = Some (sessionBegunWith userId msg)
       ∧ _isMasterKeyTrusted (stateAfter (startVerification userId msg st))
         = _isMasterKeyTrusted st).
Proof.
  rewrite startVerification_run. unfold declines.
  destruct (sasInProgress st) as [sas|] eqn:Hsas;
    [destruct (finished sas) eqn:Hfinished |]; cbn.
  - split; [split; [done | intros (? & [= <-] & ?); congruence] |]. right.
    split; [done |]. split; [done |]. split; [| done].
    unfold sasInProgress. cbn. by rewrite lookup_app_r, Nat.sub_diag.
  - split; [split; [by eexists | done] | by left].
  - split; [split; [done | by intros (? & ? & _)] |]. right.
    split; [done |]. split; [done |]. split; [| done].
    unfold sasInProgress. cbn. by rewrite lookup_app_r, Nat.sub_diag.
Qed.
End InstanceInvariants.

Section TrustOrigin.
Import CrossSigning Spec Derived.

(** X6. Whatever the collaborators answer from one step to the next, and
    however an instance got to its state, its own master key is trusted
    only if at one of the steps behind it a readable master seed derived
    the sole ed25519 key of the own master key published then: no message,
    session or signing call turns trust on.  (Trust is not withdrawn when
    the secret or the published key is gone at a later step.) *)
Theorem trust_only_from_matching_key
    (envs : list Collaborators) (st : State) :
  ReachableUnder envs st → _isMasterKeyTrusted st = true →
  ∃ env, env ∈ envs ∧ @masterKeyMatches env.
Proof.
  induction 1 as [|env envs st st' _ IH Hstep]; [done |].
  intros Htrusted.
  destruct (@step_trust_origin env st st' Hstep Htrusted) as [Hbefore | Hnow].
  - destruct (IH Hbefore) as (env' & Hin & Hmatch).
    exists env'. split; [by apply elem_of_cons; right | done].
  - exists env. split; [by apply elem_of_cons; left | done].
Qed.

End TrustOrigin.

Section TrustChainMore.
Import CrossSigning Spec Derived.
Context {env : Collaborators}.

Lemma worstVerdict_Valid (vs : list SignatureVerification) :
  worstVerdict vs = Valid ↔ Forall (λ v, v = Valid) vs.
Proof.
  unfold worstVerdict. rewrite Forall_forall.
  destruct (decide (Invalid ∈ vs)) as [Hi|Hi];
    [| destruct (decide (NotSigned ∈ vs)) as [Hn|Hn]].
  - split; [done |]. intros Hall. by specialize (Hall _ Hi).
  - split; [done |]. intros Hall. by specialize (Hall _ Hn).
  - split; [| done]. intros _ v Hv. destruct v; [done | | ]; by exfalso.
Qed.

(** The own side of the chain fails. *)
Lemma getUserTrust_own_failure (st : State) (userId : string) :
  (¬ ∃ ourUSK, ownSideVerified st ourUSK) →
  result (getUserTrust userId st) = Returned OwnSetupError.
Proof.
  intros Hnot.
  unfold getUserTrust, queryCrossSigningKey, mbind, M_bind, perform, getState,
    result.
  cbn. destruct (_isMasterKeyTrusted st) eqn:Htrusted; cbn; [| done].
  destruct (getCrossSigningKeyForUser ownUserId Master true) as [ourMSK|]
    eqn:HourMSK; cbn; [| done].
  destruct (getCrossSigningKeyForUser ownUserId UserSigning true) as [ourUSK|]
    eqn:HourUSK; cbn; [| done].
  destruct (hasValidSignatureFrom (OCross ourUSK) ourMSK) eqn:Hsigned;
    cbn; try done.
  exfalso. apply Hnot. exists ourUSK. split; [done |]. by exists ourMSK.
Qed.

Lemma ownSideVerified_dec (st : State) :
  (∃ ourUSK, ownSideVerified st ourUSK)
  ∨ ¬ ∃ ourUSK, ownSideVerified st ourUSK.
Proof.
  unfold ownSideVerified.
  destruct (_isMasterKeyTrusted st);
    [| right; by intros (? & ? & _)].
  destruct (getCrossSigningKeyForUser ownUserId Master true) as [ourMSK|];
    [| right; by intros (? & _ & ? & ? & _)].
  destruct (getCrossSigningKeyForUser ownUserId UserSigning true)
    as [ourUSK|]; [| right; by intros (? & _ & ? & _ & ? & _)].
  destruct (hasValidSignatureFrom (OCross ourUSK) ourMSK) eqn:Hsigned.
  - left. exists ourUSK. split; [done |]. by exists ourMSK.
  - right. intros (? & _ & ? & [= <-] & [= <-] & ?). congruence.
  - right. intros (? & _ & ? & [= <-] & [= <-] & ?). congruence.
Qed.

(** X8. [getUserTrust] answers [OwnSetupError] exactly when the own side
    does not check out: the own master key is not trusted, the own master
    or user-signing key is not published, or the latter is not validly
    signed by the former.  The subject plays no part in it. *)
Theorem own_setup_error_exactly (st : State) (userId : string) :
  result (getUserTrust userId st) = Returned OwnSetupError ↔
  ¬ ∃ ourUSK, ownSideVerified st ourUSK.
Proof.
  split; [| apply getUserTrust_own_failure].
  intros Hresult (ourUSK & Hown).
  rewrite (getUserTrust_own_side st userId ourUSK Hown) in Hresult.
  destruct (getCrossSigningKeyForUser userId Master true) as [theirMSK|];
    [| done].
  destruct (hasValidSignatureFrom (OCross theirMSK) ourUSK); try done.
  destruct (getCrossSigningKeyForUser userId SelfSigning true) as [theirSSK|];
    [| done].
  destruct (hasValidSignatureFrom (OCross theirSSK) theirMSK); try done.
  by destruct (lowestDeviceVerification theirSSK (devicesForUsers [userId])).
Qed.

(** X9. [getUserTrust] answers [Trusted] exactly when the whole chain
    checks out: the own side, the subject's master and self-signing keys,
    and a [Valid] signature by the subject's self-signing key on every one
    of their devices. *)
Theorem trusted_exactly_on_full_chain (st : State) (userId : string) :
  result (getUserTrust userId st) = Returned Trusted ↔
  ∃ ourUSK theirSSK,
    ownSideVerified st ourUSK
    ∧ subjectKeysVerified userId ourUSK theirSSK
    ∧ Forall (λ dk, hasValidSignatureFrom (ODevice dk) theirSSK = Valid)
        (devicesForUsers [userId]).
Proof.
  split.
  - intros Hresult.
    destruct (ownSideVerified_dec st) as [(ourUSK & Hown) | Hnot];
      [| by rewrite getUserTrust_own_failure in Hresult].
    rewrite (getUserTrust_own_side st userId ourUSK Hown) in Hresult.
    destruct (getCrossSigningKeyForUser userId Master true) as [theirMSK|]
      eqn:HtheirMSK; [| done].
    destruct (hasValidSignatureFrom (OCross theirMSK) ourUSK) eqn:Hmsk;
      try done.
    destruct (getCrossSigningKeyForUser userId SelfSigning true)
      as [theirSSK|] eqn:HtheirSSK; [| done].
    destruct (hasValidSignatureFrom (OCross theirSSK) theirMSK) eqn:Hssk;
      try done.
    destruct (lowestDeviceVerification theirSSK (devicesForUsers [userId]))
      eqn:Hlowest; try done.
    exists ourUSK, theirSSK. split; [done |]. split; [by exists theirMSK |].
    rewrite lowestDeviceVerification_worst in Hlowest.
    apply worstVerdict_Valid in Hlowest. by rewrite Forall_fmap in Hlowest.
  - intros (ourUSK & theirSSK & Hown & (theirMSK & H1 & H2 & H3 & H4) & Hall).
    rewrite (getUserTrust_own_side st userId ourUSK Hown), H1, H2, H3, H4.
    assert (lowestDeviceVerification theirSSK (devicesForUsers [userId])
            = Valid) as ->; [| done].
    rewrite lowestDeviceVerification_worst. apply worstVerdict_Valid.
    by rewrite Forall_fmap.
Qed.

End TrustChainMore.

Section TrustChainEffects.
Import CrossSigning Spec Derived.
Context {env : Collaborators}.



(** X11. The aggregate over the devices does not depend on the order in
    which the device tracker lists them. *)
Theorem lowestDeviceVerification_order_irrelevant (theirSSK : CrossSigningKey)
    (devices devices' : list DeviceKey) :
  devices ≡ₚ devices' →
  lowestDeviceVerification theirSSK devices
  = lowestDeviceVerification theirSSK devices'.
Proof.
  intros Hperm. rewrite !lowestDeviceVerification_worst.
  assert (∀ v, v ∈ map (λ dk, hasValidSignatureFrom (ODevice dk) theirSSK)
                     devices ↔
               v ∈ map (λ dk, hasValidSignatureFrom (ODevice dk) theirSSK)
                     devices') as Hsame.
  { intros v. rewrite !list_elem_of_fmap.
    split; intros (dk & -> & Hin); exists dk; split; try done.
    - by rewrite <- Hperm.
    - by rewrite Hperm. }
  unfold worstVerdict.
  destruct (decide (Invalid ∈ _)) as [Hi|Hi],
           (decide (Invalid ∈ _)) as [Hi'|Hi']; try done;
    try (exfalso; apply Hsame in Hi || apply Hsame in Hi'; done).
  destruct (decide (NotSigned ∈ _)) as [Hn|Hn],
           (decide (NotSigned ∈ _)) as [Hn'|Hn']; try done;
    exfalso; (apply Hsame in Hn || apply Hsame in Hn'); done.
Qed.

(** X12. A signing key without a usable ed25519 entry signs nothing.  If
    our published user-signing key is such a key, every subject comes out
    [UserNotSigned], whatever signatures their master key carries; if the
    subject's self-signing key is, every one of their devices counts as
    not signed, so a subject with a device comes out
    [UserDeviceNotSigned]. *)
Theorem unusable_signing_key_signs_nothing (st : State) (userId : string)
    (ourUSK : CrossSigningKey) :
  ownSideVerified st ourUSK →
  (ed25519EntryCount ourUSK ≠ 1 →
   result (getUserTrust userId st) = Returned UserNotSigned)
  ∧ (∀ theirSSK,
       subjectKeysVerified userId ourUSK theirSSK →
       ed25519EntryCount theirSSK ≠ 1 →
       devicesForUsers [userId] ≠ [] →
       result (getUserTrust userId st) = Returned UserDeviceNotSigned).
Proof.
  intros Hown. rewrite (getUserTrust_own_side st userId ourUSK Hown). split.
  - intros Hbad. destruct (getCrossSigningKeyForUser userId Master true);
      [| done].
    unfold hasValidSignatureFrom at 1.
    by rewrite getKeyEd25519Key_malformed.
  - intros theirSSK (theirMSK & -> & -> & -> & ->) Hbad Hdevices.
    rewrite lowestDeviceVerification_worst.
    destruct (devicesForUsers [userId]) as [|dk dks]; [done |].
    cbn [map]. rewrite worstVerdict_cons.
    unfold hasValidSignatureFrom at 1.
    rewrite getKeyEd25519Key_malformed by done. cbn.
    destruct (worstVerdict _) eqn:Hrest; try done.
    exfalso. unfold worstVerdict in Hrest.
    destruct (decide (Invalid ∈ _)) as [Hi|_]; [| by destruct (decide _)].
    apply list_elem_of_fmap in Hi as (d & Hd & _).
    unfold hasValidSignatureFrom in Hd.
    by rewrite getKeyEd25519Key_malformed in Hd.
Qed.

End TrustChainEffects.


Section SigningMore.
Import CrossSigning Spec Derived.
Context {env : Collaborators}.

Lemma getSigningKey_seedFor (u : KeyUsage) (st : State) :
  getSigningKey u st = (Returned (seedFor u), st, [ReadSecret (secretName u)]).
Proof.
  unfold getSigningKey, seedFor, secretName, mbind, M_bind, perform. cbn.
  destruct (readSecret _) as [s|]; cbn; [| done]. by destruct (JS.truthy s).
Qed.

Lemma signDeviceKey_run (dk : DeviceKey) (st : State) :
  signDeviceKey dk st =
  match seedFor SelfSigning with
  | None => (Returned None, st, [ReadSecret (secretName SelfSigning)])
  | Some sk =>
      let signed := signKey (ODevice dk) sk in
      let payload := payloadOf (dk_user_id dk) (dk_device_id dk) signed in
      (if uploadSignatures_ok payload then Returned (Some signed)
       else Rejected,
       st,
       [ReadSecret (secretName SelfSigning); Sign ownUserId signed;
        UploadSignatures payload])
  end.
Proof.
  unfold signDeviceKey, mbind at 1, M_bind at 1.
  rewrite getSigningKey_seedFor.
  destruct (seedFor SelfSigning) as [sk|]; [| done].
  unfold uploadSignatures, payloadOf, mbind, M_bind, perform, reject. cbn.
  by destruct (uploadSignatures_ok _).
Qed.

Lemma signOwnDevice_run (st : State) :
  signOwnDevice st =
  if _isMasterKeyTrusted st then signDeviceKey getUnsignedDeviceKey st
  else (Returned None, st, []).
Proof.
  unfold signOwnDevice, mbind, M_bind, getState. cbn.
  destruct (_isMasterKeyTrusted st); cbn; [| done].
  by destruct (signDeviceKey _ st) as [[r s] t].
Qed.

Lemma signDevice_run (device : string) (st : State) :
  signDevice device st =
  if _isMasterKeyTrusted st then
    match deviceForId ownUserId device with
    | None => (Returned None, st, [QueryDevice ownUserId device])
    | Some dk =>
        let run := signDeviceKey (strippedDevice dk) st in
        (result run, stateAfter run,
         QueryDevice ownUserId device :: effects run)
    end
  else (Returned None, st, []).
Proof.
  unfold signDevice, mbind, M_bind, getState, perform. cbn.
  destruct (_isMasterKeyTrusted st); cbn; [| done].
  destruct (deviceForId ownUserId device) as [dk|]; cbn; [| done].
  fold (strippedDevice dk).
  by destruct (signDeviceKey _ st) as [[[r|] s] t].
Qed.

Lemma signUser_run (userId : string) (st : State) :
  signUser userId st =
  if negb (_isMasterKeyTrusted st) || bool_decide (userId = ownUserId)
  then (Returned None, st, [])
  else
    let query := QueryCrossSigningKey userId Master true in
    match getCrossSigningKeyForUser userId Master true with
    | None => (Returned None, st, [query])
    | Some k =>
        let secret := ReadSecret (secretName UserSigning) in
        match seedFor UserSigning with
        | None => (Returned None, st, [query; secret])
        | Some sk =>
            let signed := signKey (OCross (strippedKey k)) sk in
            let payload :=
              payloadOf (user_id k)
                (default "undefined"%string (getKeyEd25519Key (strippedKey k)))
                signed in
            (if uploadSignatures_ok payload then Returned (Some signed)
             else Rejected,
             st, [query; secret; Sign ownUserId signed;
                  UploadSignatures payload])
        end
    end.
Proof.
  unfold signUser, queryCrossSigningKey, getSigningKey, seedFor, secretName,
    uploadSignatures, payloadOf, strippedKey, mbind, M_bind, perform, reject,
    getState.
  cbn. destruct (_isMasterKeyTrusted st); cbn; [| done].
  destruct (bool_decide (userId = ownUserId)); cbn; [done |].
  destruct (getCrossSigningKeyForUser userId Master true) as [k|]; cbn;
    [| done].
  destruct (readSecret _) as [s|]; cbn; [| done].
  destruct (JS.truthy s); cbn; [| done].
  by destruct (uploadSignatures_ok _).
Qed.

Lemma quiet_ReadSecret (name : string) : quiet (ReadSecret name).
Proof. by split. Qed.
Lemma quiet_QueryDevice (userId device : string) :
  quiet (QueryDevice userId device).
Proof. by split. Qed.
Lemma quiet_QueryKey (userId : string) (u : KeyUsage) (hsApi : bool) :
  quiet (QueryCrossSigningKey userId u hsApi).
Proof. by split. Qed.

Lemma signsThenUploads_quiet (st : State) (t : list Effect) :
  Forall quiet t → signsThenUploads (Returned None, st, t).
Proof. intros Hquiet. left. by split. Qed.

Lemma signsThenUploads_signed (st : State) (before : list Effect)
    (userId keyId : string) (o : SignedObject) :
  Forall quiet before →
  signsThenUploads
    (if uploadSignatures_ok (payloadOf userId keyId o)
     then Returned (Some o) else Rejected,
     st,
     (before ++ [Sign ownUserId o;
                 UploadSignatures (payloadOf userId keyId o)])%list).
Proof. intros Hquiet. right. by exists before, userId, keyId, o. Qed.

Lemma signsThenUploads_after (e : Effect)
    (run : Completion (option SignedObject) * State * list Effect) :
  quiet e → signsThenUploads run →
  signsThenUploads (result run, stateAfter run, e :: effects run).
Proof.
  intros He [[Hquiet Hnone] | (before & u & k & o & Ht & Hquiet & Hres)].
  - left. split; [by constructor | done].
  - right. exists (e :: before), u, k, o. unfold effects, result in *. cbn.
    rewrite Ht. split; [done |]. split; [by constructor | done].
Qed.

Lemma signsThenUploads_signDeviceKey (dk : DeviceKey) (st : State) :
  signsThenUploads (signDeviceKey dk st).
Proof.
  rewrite signDeviceKey_run.
  destruct (seedFor SelfSigning) as [sk|]; cbn zeta.
  - apply (signsThenUploads_signed st [ReadSecret (secretName SelfSigning)]).
    repeat constructor; done.
  - apply signsThenUploads_quiet. repeat constructor; done.
Qed.

(** X13. In every run of [signOwnDevice], [signDevice] and [signUser]:
    either nothing is signed or uploaded, and then no signed object is
    handed out; or one object is signed, exactly that object is uploaded
    right after the signature, and it is returned when the upload goes
    through while the call rejects when the upload does not.  The instance
    is left as it was. *)
Theorem signing_signs_then_uploads (st : State) (device userId : string) :
  signsThenUploads (signOwnDevice st)
  ∧ signsThenUploads (signDevice device st)
  ∧ signsThenUploads (signUser userId st)
  ∧ stateAfter (signOwnDevice st) = st
  ∧ stateAfter (signDevice device st) = st
  ∧ stateAfter (signUser userId st) = st.
Proof.
  split; [| split; [| split]].
  - rewrite signOwnDevice_run. destruct (_isMasterKeyTrusted st).
    + apply signsThenUploads_signDeviceKey.
    + by apply signsThenUploads_quiet.
  - rewrite signDevice_run.
    destruct (_isMasterKeyTrusted st); [| by apply signsThenUploads_quiet].
    destruct (deviceForId ownUserId device) as [dk|].
    + apply signsThenUploads_after;
        [apply quiet_QueryDevice | apply signsThenUploads_signDeviceKey].
    + apply signsThenUploads_quiet. repeat constructor; done.
  - rewrite signUser_run.
    destruct (_ || _); [by apply signsThenUploads_quiet |].
    cbn zeta.
    destruct (getCrossSigningKeyForUser userId Master true) as [k|];
      [| apply signsThenUploads_quiet; repeat constructor; done].
    destruct (seedFor UserSigning) as [sk|];
      [| apply signsThenUploads_quiet; repeat constructor; done].
    apply (signsThenUploads_signed st
             [QueryCrossSigningKey userId Master true;
              ReadSecret (secretName UserSigning)]).
    repeat constructor; done.
  - split; [apply readOnly_signOwnDevice |].
    split; [apply readOnly_signDevice | apply readOnly_signUser].
Qed.

End SigningMore.

Section SigningContent.
Import CrossSigning Spec Derived.
Context {env : Collaborators}.

(** X14. [signDevice] returns a signed key exactly when the own master key
    is trusted, the device is known, the self-signing seed is readable and
    the upload goes through.  The key it returns is the fetched one with
    its [signatures] replaced by what [pkSign] makes of the key stripped of
    them, and it is uploaded under the key's own user id and device id. *)
Theorem signDevice_succeeds_exactly (device : string) (st : State)
    (o : SignedObject) :
  result (signDevice device st) = Returned (Some o) ↔
  _isMasterKeyTrusted st = true
  ∧ ∃ dk sk,
      deviceForId ownUserId device = Some dk
      ∧ seedFor SelfSigning = Some sk
      ∧ o = ODevice
              (mkDeviceKey (dk_user_id dk) (dk_device_id dk) (dk_keys dk)
                 (Some (pkSign (ODevice (strippedDevice dk)) sk ownUserId "")))
      ∧ uploadSignatures_ok (payloadOf (dk_user_id dk) (dk_device_id dk) o)
        = true
      ∧ effects (signDevice device st)
        = [QueryDevice ownUserId device; ReadSecret (secretName SelfSigning);
           Sign ownUserId o;
           UploadSignatures (payloadOf (dk_user_id dk) (dk_device_id dk) o)].
Proof.
  rewrite signDevice_run.
  destruct (_isMasterKeyTrusted st); cbn;
    [| split; [done | by intros [? _]]].
  destruct (deviceForId ownUserId device) as [dk|]; cbn;
    [| split; [done | by intros (_ & ? & ? & ? & _)]].
  rewrite signDeviceKey_run.
  destruct (seedFor SelfSigning) as [sk|]; cbn;
    [| split; [done | by intros (_ & ? & ? & _ & ? & _)]].
  unfold result, effects, stateAfter. cbn [fst snd].
  destruct (uploadSignatures_ok _) eqn:Hok; cbn [fst snd].
  - split.
    + intros [= <-]. split; [done |]. by exists dk, sk.
    + by intros (_ & ? & ? & [= <-] & [= <-] & -> & _).
  - split; [done |].
    intros (_ & ? & ? & [= <-] & [= <-] & -> & Hok' & _).
    exfalso. exact (eq_true_false_abs _ Hok' Hok).
Qed.

(** X15. [signUser] returns a signed key exactly when the own master key
    is trusted, the user is another one, their master key is known, the
    user-signing seed is readable and the upload goes through.  The key it
    returns is their master key with its [signatures] replaced by what
    [pkSign] makes of the key stripped of them. *)
Theorem signUser_succeeds_exactly (userId : string) (st : State)
    (o : SignedObject) :
  result (signUser userId st) = Returned (Some o) ↔
  _isMasterKeyTrusted st = true
  ∧ userId ≠ ownUserId
  ∧ ∃ k sk keyId,
      getCrossSigningKeyForUser userId Master true = Some k
      ∧ seedFor UserSigning = Some sk
      ∧ o = OCross
              (mkCrossSigningKey (user_id k) (usage k) (keys k)
                 (Some (pkSign (OCross (strippedKey k)) sk ownUserId "")))
      ∧ uploadSignatures_ok (payloadOf (user_id k) keyId o) = true
      ∧ effects (signUser userId st)
        = [QueryCrossSigningKey userId Master true;
           ReadSecret (secretName UserSigning);
           Sign ownUserId o;
           UploadSignatures (payloadOf (user_id k) keyId o)].
Proof.
  rewrite signUser_run.
  destruct (_isMasterKeyTrusted st); cbn;
    [| split; [done | by intros [? _]]].
  case_bool_decide as Hself; cbn; [split; [done | by intros (_ & ? & _)] |].
  destruct (getCrossSigningKeyForUser userId Master true) as [k|]; cbn;
    [| split; [done | by intros (_ & _ & ? & ? & ? & ? & _)]].
  destruct (seedFor UserSigning) as [sk|]; cbn;
    [| split; [done | by intros (_ & _ & ? & ? & ? & _ & ? & _)]].
  unfold result, effects, stateAfter. cbn [fst snd].
  destruct (uploadSignatures_ok _) eqn:Hok; cbn [fst snd].
  - split.
    + intros [= <-]. split; [done |]. split; [done |].
      by exists k, sk,
        (default "undefined"%string (getKeyEd25519Key (strippedKey k))).
    + by intros (_ & _ & ? & ? & ? & [= <-] & [= <-] & -> & _).
  - split; [done |].
    intros (_ & _ & ? & ? & keyId & [= <-] & [= <-] & -> & Hok' & Heff).
    apply (f_equal (λ l : list Effect,
                      match l !! 3 with
                      | Some (UploadSignatures p) => uploadSignatures_ok p
                      | _ => true
                      end)) in Heff.
    exfalso. apply (eq_true_false_abs _ Hok').
    etransitivity; [symmetry; exact Heff | exact Hok].
Qed.

(** X16. [signUser] does not look at the ed25519 entry of the key it
    signs: a master key that holds zero or several of them is signed and
    uploaded all the same, filed under the property name ["undefined"]. *)
Theorem signUser_files_unusable_key_under_undefined (userId : string)
    (st : State) (k : CrossSigningKey) :
  _isMasterKeyTrusted st = true →
  userId ≠ ownUserId →
  getCrossSigningKeyForUser userId Master true = Some k →
  ed25519EntryCount k ≠ 1 →
  is_Some (seedFor UserSigning) →
  ∃ o, Sign ownUserId o ∈ effects (signUser userId st)
       ∧ UploadSignatures (payloadOf (user_id k) "undefined" o)
         ∈ effects (signUser userId st).
Proof.
  intros Htrusted Hother Hk Hbad [sk Hsk].
  rewrite signUser_run, Htrusted, bool_decide_eq_false_2, Hk, Hsk by done.
  cbn. assert (ed25519EntryCount (strippedKey k) ≠ 1) as Hbad' by done.
  rewrite (getKeyEd25519Key_malformed _ Hbad'). cbn.
  eexists. split; [do 2 right; left | do 3 right; left].
Qed.

(** X17. Each signing operation reads at most one secret, the seed it
    signs with: [signOwnDevice] and [signDevice] the self-signing seed,
    [signUser] the user-signing seed.  None reads the master seed. *)
Theorem signing_reads_its_own_seed_only (st : State) (device userId : string) :
  (secretsRead (effects (signOwnDevice st)) = []
   ∨ secretsRead (effects (signOwnDevice st))
     = ["m.cross_signing.self_signing"%string])
  ∧ (secretsRead (effects (signDevice device st)) = []
     ∨ secretsRead (effects (signDevice device st))
       = ["m.cross_signing.self_signing"%string])
  ∧ (secretsRead (effects (signUser userId st)) = []
     ∨ secretsRead (effects (signUser userId st))
       = ["m.cross_signing.user_signing"%string]).
Proof.
  assert (∀ dk, secretsRead (effects (signDeviceKey dk st))
                = ["m.cross_signing.self_signing"%string]) as Hkey.
  { intros dk. rewrite signDeviceKey_run. by destruct (seedFor SelfSigning). }
  split; [| split].
  - rewrite signOwnDevice_run.
    destruct (_isMasterKeyTrusted st); [right; apply Hkey | by left].
  - rewrite signDevice_run. destruct (_isMasterKeyTrusted st); [| by left].
    destruct (deviceForId ownUserId device) as [dk|]; [| by left].
    right. apply (Hkey (strippedDevice dk)).
  - rewrite signUser_run. destruct (_ || _); [by left |]. cbn zeta.
    destruct (getCrossSigningKeyForUser userId Master true) as [k|];
      [| by left].
    right. by destruct (seedFor UserSigning).
Qed.

End SigningContent.


Section JSStrings.

Lemma append_cons (x : ascii) (a s : string) :
  (String x a +:+ s = String x (a +:+ s))%string.
Proof. reflexivity. Qed.

Lemma append_empty (s : string) : ("" +:+ s = s)%string.
Proof. reflexivity. Qed.

Lemma append_assoc (a b c : string) :
  ((a +:+ b) +:+ c = a +:+ (b +:+ c))%string.
Proof.
  induction a as [|x a IH]; [done |]. by rewrite !append_cons, IH.
Qed.

Lemma startsWith_append_both (a p s : string) :
  JS.startsWith (a +:+ p) (a +:+ s) = JS.startsWith p s.
Proof.
  unfold JS.startsWith. induction a as [|x a IH]; [done |].
  rewrite !append_cons. cbn. destruct (ascii_dec x x); [done | congruence].
Qed.

Lemma substr_append (a s : string) : JS.substr (String.length a) (a +:+ s) = s.
Proof.
  induction a as [|x a IH]; [by destruct s |]. by rewrite append_cons.
Qed.

Lemma startsWith_split (a b s : string) :
  JS.startsWith (a +:+ b) s = true →
  s = (a +:+ JS.substr (String.length a) s)%string
  ∧ JS.startsWith b (JS.substr (String.length a) s) = true.
Proof.
  unfold JS.startsWith. revert s. induction a as [|x a IH]; intros s.
  - rewrite append_empty. by destruct s.
  - rewrite append_cons. destruct s as [|y s]; [done |]. cbn.
    destruct (ascii_dec x y) as [->|]; [| done].
    intros [Heq ?]%IH. split; [| done]. rewrite append_cons. by f_equal.
Qed.

End JSStrings.

Section StoreMore.
Import SessionStore StoreEvents.
Context {V : Type} {host : Host V}.

Lemma lsKeyFor_lsPrefix (key : string) :
  lsKeyFor key = (lsPrefix +:+ key)%string.
Proof. unfold lsKeyFor, lsPrefix. by rewrite append_assoc. Qed.

Lemma lsKeyFor_inj (k k' : string) : lsKeyFor k = lsKeyFor k' → k = k'.
Proof. rewrite !lsKeyFor_lsPrefix. apply String.app_inj. Qed.

Lemma lsKeyFor_prefix (key : string) :
  JS.startsWith prefix (lsKeyFor key)
  = JS.startsWith SESSION_E2EE_KEY_PREFIX key.
Proof. rewrite lsKeyFor_lsPrefix. apply startsWith_append_both. Qed.

Lemma lsKeyFor_substr (key : string) :
  JS.substr (String.length lsPrefix) (lsKeyFor key) = key.
Proof. rewrite lsKeyFor_lsPrefix. apply substr_append. Qed.

Lemma prefixed_is_lsKeyFor (lsKey : string) :
  JS.startsWith prefix lsKey = true →
  lsKey = lsKeyFor (JS.substr (String.length lsPrefix) lsKey)
  ∧ JS.startsWith SESSION_E2EE_KEY_PREFIX
      (JS.substr (String.length lsPrefix) lsKey) = true.
Proof.
  intros [Heq Hp]%startsWith_split. split; [| done].
  by rewrite lsKeyFor_lsPrefix.
Qed.

Lemma getItem_setItem_ne (ls : DOMStorage) (k k' v : string) :
  k ≠ k' → getItem (setItem ls k' v) k = getItem ls k.
Proof.
  intros Hne. induction ls as [|[k0 v0] ls IH]; cbn.
  - by rewrite bool_decide_eq_false_2.
  - destruct (decide (k0 = k')) as [->|Hk0].
    + rewrite (bool_decide_eq_true_2 (k' = k')) by done. cbn.
      by rewrite !bool_decide_eq_false_2.
    + rewrite (bool_decide_eq_false_2 (k0 = k')) by done. cbn.
      by rewrite IH.
Qed.

(** Once the loop has run to its end, every entry under the restore prefix
    that it passed has its key in the primary store. *)
Lemma restoreLoop_present (ls : DOMStorage) (n i : nat)
    (store : gmap string V) (success : bool) (j : nat) (lsKey : string) :
  is_Some (restoreLoop ls n i store success).2 →
  i ≤ j < i + n → ls_key ls j = Some lsKey →
  JS.startsWith prefix lsKey = true →
  is_Some ((restoreLoop ls n i store success).1
             !! JS.substr (String.length lsPrefix) lsKey).
Proof.
  revert i store success.
  induction n as [|n IH]; intros i store success; cbn; [lia |].
  intros Hret Hj Hkey Hp.
  destruct (ls_key ls i) as [lsKey0|] eqn:Hkey0; [| by destruct Hret].
  destruct (decide (j = i)) as [->|Hne].
  - rewrite Hkey in Hkey0. injection Hkey0 as <-. rewrite Hp in *.
    destruct (getItem ls lsKey ≫= parse) as [value|]; [| by destruct Hret].
    unfold Store_getKey, Store_put in *.
    destruct (store !! JS.substr _ lsKey) eqn:Hstore; cbn in *.
    + rewrite bool_decide_eq_true_2 in * by done. cbn in *.
      eexists. by apply restoreLoop_frame.
    + rewrite bool_decide_eq_false_2 in * by done. cbn in *.
      eexists. apply restoreLoop_frame, lookup_insert_eq.
  - destruct (JS.startsWith prefix lsKey0); [| apply IH; [done | lia | done..]].
    destruct (getItem ls lsKey0 ≫= parse) as [value|]; [| by destruct Hret].
    destruct (negb _); apply IH; first [done | lia].
Qed.

(** A run over entries whose keys are all in the primary store and whose
    texts parse changes nothing. *)
Lemma restoreLoop_nothing_to_do (ls : DOMStorage) (n i : nat)
    (store : gmap string V) (success : bool) :
  (∀ j lsKey, i ≤ j < i + n → ls_key ls j = Some lsKey →
              JS.startsWith prefix lsKey = true →
              is_Some (getItem ls lsKey ≫= parse)
              ∧ is_Some
                  (store !! JS.substr (String.length lsPrefix) lsKey)) →
  i + n ≤ length ls →
  restoreLoop ls n i store success = (store, Some success).
Proof.
  revert i. induction n as [|n IH]; intros i Hall Hlen; cbn; [done |].
  destruct (lookup_lt_is_Some_2 ls i) as [[lsKey raw0] Hentry]; [lia |].
  unfold ls_key at 1. rewrite Hentry. cbn.
  destruct (JS.startsWith prefix lsKey) eqn:Hp.
  - destruct (Hall i lsKey) as [[value ->] [v Hv]]; [lia | | done |].
    { unfold ls_key. by rewrite Hentry. }
    unfold Store_getKey. rewrite Hv, bool_decide_eq_true_2 by done. cbn.
    apply IH; [| lia]. intros j k ? ? ?. apply (Hall j k); [lia | done..].
  - apply IH; [| lia]. intros j k ? ? ?. apply (Hall j k); [lia | done..].
Qed.

(** A run that returned has parsed every entry under the restore prefix. *)
Lemma restoreLoop_parsed (ls : DOMStorage) (n i : nat)
    (store : gmap string V) (success : bool) (j : nat) (lsKey : string) :
  is_Some (restoreLoop ls n i store success).2 →
  i ≤ j < i + n → ls_key ls j = Some lsKey →
  JS.startsWith prefix lsKey = true →
  is_Some (getItem ls lsKey ≫= parse).
Proof.
  revert i store success.
  induction n as [|n IH]; intros i store success; cbn; [lia |].
  intros Hret Hj Hkey Hp.
  destruct (ls_key ls i) as [lsKey0|] eqn:Hkey0; [| by destruct Hret].
  destruct (decide (j = i)) as [->|Hne].
  - rewrite Hkey in Hkey0. injection Hkey0 as <-. rewrite Hp in *.
    destruct (getItem ls lsKey ≫= parse) as [value|]; [by eexists |].
    by destruct Hret.
  - destruct (JS.startsWith prefix lsKey0);
      [| eapply IH; [done | lia | done..]].
    destruct (getItem ls lsKey0 ≫= parse) as [value|]; [| by destruct Hret].
    destruct (negb _); eapply IH; first [done | lia].
Qed.

End StoreMore.

Section StoreRoundTrips.
Import SessionStore StoreEvents.
Context {V : Type} {host : Host V}.

(** X18. [set] always writes the primary store.  It writes the mirror only
    for a key under the secret prefix whose value serialises, and then
    only the entry under the derived key; a key outside the prefix, or a
    value [stringify] throws on, leaves the mirror as it was.  [add]
    treats the mirror the same way. *)
Theorem set_writes_primary_and_mirror (m : Media V) (key : string) (value : V) :
  get (set m key value) key = Some value
  ∧ (∀ other, other ≠ key → get (set m key value) other = get m other)
  ∧ (JS.startsWith SESSION_E2EE_KEY_PREFIX key = false
     ∨ stringify value = None →
     _localStorage (set m key value) = _localStorage m)
  ∧ (∀ lsValue,
       JS.startsWith SESSION_E2EE_KEY_PREFIX key = true →
       stringify value = Some lsValue →
       getItem (_localStorage (set m key value)) (lsKeyFor key) = Some lsValue
       ∧ ∀ lsKey, lsKey ≠ lsKeyFor key →
                  getItem (_localStorage (set m key value)) lsKey
                  = getItem (_localStorage m) lsKey)
  ∧ _localStorage (add m key value) = _localStorage (set m key value).
Proof.
  unfold set, add, get, _writeKeyToLocalStorage, Store_put.
  cbn [_localStorage _sessionStore].
  split; [apply lookup_insert_eq |].
  split; [intros other Hne; by apply lookup_insert_ne |].
  split; [| split; [| done]].
  - intros [-> | Hthrows]; [done |]. rewrite Hthrows.
    by destruct (JS.startsWith _ _).
  - intros lsValue -> ->. split; [apply getItem_setItem |].
    intros lsKey Hne. by apply getItem_setItem_ne.
Qed.

(** What a restore from a parsing mirror brings back for a key the primary
    store lacks. *)
Lemma restore_recovers (m : Media V) (key lsValue : string) (value : V) :
  _sessionStore m !! key = None →
  JS.startsWith SESSION_E2EE_KEY_PREFIX key = true →
  getItem (_localStorage m) (lsKeyFor key) = Some lsValue →
  parse lsValue = Some value →
  mirrorParses (_localStorage m) →
  get (tryRestoreE2EEIdentityFromLocalStorage m).1 key = Some value
  ∧ (tryRestoreE2EEIdentityFromLocalStorage m).2 = Some true.
Proof.
  intros Hlost Hsecret Hmirror Hparse Hparses.
  unfold tryRestoreE2EEIdentityFromLocalStorage, get, ls_length.
  cbn [fst snd _sessionStore].
  set (ls := _localStorage m) in *. set (store := _sessionStore m) in *.
  pose proof (restoreLoop_returns ls (length ls) 0 store false eq_refl Hparses)
    as Hret.
  destruct (proj1 (list_elem_of_lookup _ _) (getItem_elem _ _ _ Hmirror))
    as [j Hj].
  assert (is_Some ((restoreLoop ls (length ls) 0 store false).1 !! key))
    as [value' Hpresent].
  { rewrite <- (lsKeyFor_substr key).
    apply (restoreLoop_present ls (length ls) 0 store false j); [done | | |].
    - apply lookup_lt_Some in Hj. lia.
    - unfold ls_key. by rewrite Hj.
    - by rewrite lsKeyFor_prefix. }
  split.
  - rewrite Hpresent. f_equal.
    destruct (restoreLoop_provenance ls (length ls) 0 store false key value'
                Hlost Hpresent) as (lsKey & raw & Hraw & Hp & Hkey & Hvalue).
    apply prefixed_is_lsKeyFor in Hp as [HlsKey _].
    rewrite <- Hkey in HlsKey. subst lsKey. congruence.
  - destruct Hret as [b Hb]. rewrite Hb. f_equal.
    apply (restoreLoop_result ls (length ls) 0 store false b Hb).
    right. exists key. split; [done | by eexists].
Qed.

(** X19. A value written under the secret prefix survives the loss of the
    primary store: after [set], a wipe of the primary store and a restore,
    [get] gives the value back, when it parses back from its mirrored text
    and the other mirrored texts parse too.  A key outside the secret
    prefix is never brought back by a restore. *)
Theorem secret_survives_loss_of_primary (m : Media V) (key lsValue : string)
    (value : V) :
  (JS.startsWith SESSION_E2EE_KEY_PREFIX key = true →
   stringify value = Some lsValue →
   parse lsValue = Some value →
   mirrorParses (_localStorage (set m key value)) →
   get (tryRestoreE2EEIdentityFromLocalStorage
          (losePrimary (set m key value))).1 key = Some value
   ∧ (tryRestoreE2EEIdentityFromLocalStorage
        (losePrimary (set m key value))).2 = Some true)
  ∧ (JS.startsWith SESSION_E2EE_KEY_PREFIX key = false →
     get (tryRestoreE2EEIdentityFromLocalStorage
            (losePrimary (set m key value))).1 key = None).
Proof.
  split.
  - intros Hsecret Hstr Hparse Hparses.
    apply (restore_recovers _ key lsValue); try done.
    unfold losePrimary. cbn [_localStorage].
    unfold set, _writeKeyToLocalStorage. cbn [_localStorage].
    rewrite Hsecret, Hstr. apply getItem_setItem.
  - intros Hplain. unfold tryRestoreE2EEIdentityFromLocalStorage, get.
    cbn [fst _sessionStore losePrimary].
    destruct ((restoreLoop _ _ _ _ _).1 !! key) as [v|] eqn:Hback; [| done].
    exfalso.
    apply restoreLoop_provenance in Hback as (lsKey & _ & _ & Hp & -> & _);
      [| done].
    apply prefixed_is_lsKeyFor in Hp as [_ Hsecret]. congruence.
Qed.

(** X20. Restoring twice is restoring once: a restore that has returned
    leaves media on which a second restore adds nothing and returns
    [false]. *)
Theorem restore_is_idempotent (m : Media V) (b : bool) :
  (tryRestoreE2EEIdentityFromLocalStorage m).2 = Some b →
  tryRestoreE2EEIdentityFromLocalStorage
    (tryRestoreE2EEIdentityFromLocalStorage m).1
  = ((tryRestoreE2EEIdentityFromLocalStorage m).1, Some false).
Proof.
  unfold tryRestoreE2EEIdentityFromLocalStorage, ls_length.
  cbn [fst snd _sessionStore _localStorage].
  set (ls := _localStorage m). set (store := _sessionStore m).
  intros Hb.
  assert (is_Some (restoreLoop ls (length ls) 0 store false).2) as Hret
    by (by eexists).
  rewrite restoreLoop_nothing_to_do; [done | | lia].
  intros j lsKey Hj Hkey Hp. split.
  - by apply (restoreLoop_parsed ls (length ls) 0 store false j).
  - by apply (restoreLoop_present ls (length ls) 0 store false j).
Qed.

(** X21. [remove] deletes the primary entry and leaves the other primary
    entries alone, but a value removed under the secret prefix comes back
    with the next restore, from the mirrored entry [remove] has left
    behind. *)
Theorem removed_secret_returns_on_restore (m : Media V) (key lsValue : string)
    (value : V) :
  JS.startsWith SESSION_E2EE_KEY_PREFIX key = true →
  stringify value = Some lsValue →
  parse lsValue = Some value →
  mirrorParses (_localStorage (remove (set m key value) key)) →
  get (remove (set m key value) key) key = None
  ∧ (∀ other, other ≠ key →
              get (remove (set m key value) key) other = get m other)
  ∧ get (tryRestoreE2EEIdentityFromLocalStorage
           (remove (set m key value) key)).1 key = Some value.
Proof.
  intros Hsecret Hstr Hparse Hparses.
  destruct (remove_misses_mirror m key value lsValue Hsecret Hstr)
    as [Hmirror Hgone].
  split; [done |]. split.
  - intros other Hne. unfold get, remove, set, Store_delete, Store_put.
    cbn [_sessionStore]. by rewrite lookup_delete_ne, lookup_insert_ne.
  - by apply (restore_recovers _ key lsValue).
Qed.

End StoreRoundTrips.

Section WriteBackup.
Import SessionStore StoreEvents.
Context {V : Type} {host : Host V}.


Lemma backupEntry_other (ls : DOMStorage) (e : string * V) (lsKey : string) :
  lsKey ≠ lsKeyFor e.1 →
  getItem (backupEntry ls e) lsKey = getItem ls lsKey.
Proof.
  intros Hne. unfold backupEntry, _writeKeyToLocalStorage.
  destruct (JS.startsWith _ _); [| done].
  destruct (stringify e.2); [| done]. by apply getItem_setItem_ne.
Qed.

Lemma backup_fold_other (l : list (string * V)) (ls : DOMStorage)
    (lsKey : string) :
  (∀ e, e ∈ l → JS.startsWith SESSION_E2EE_KEY_PREFIX e.1 = true →
        lsKey ≠ lsKeyFor e.1) →
  getItem (fold_left backupEntry l ls) lsKey = getItem ls lsKey.
Proof.
  revert ls. induction l as [|e l IH]; intros ls Hother; cbn; [done |].
  rewrite IH by (intros e' ?; apply Hother; by right).
  destruct (JS.startsWith SESSION_E2EE_KEY_PREFIX e.1) eqn:Hsecret.
  - apply backupEntry_other, Hother; [left | done].
  - unfold backupEntry. by rewrite Hsecret.
Qed.

Lemma backup_fold_entry (l : list (string * V)) (ls : DOMStorage)
    (key lsValue : string) (value : V) :
  NoDup l.*1 → (key, value) ∈ l →
  JS.startsWith SESSION_E2EE_KEY_PREFIX key = true →
  stringify value = Some lsValue →
  getItem (fold_left backupEntry l ls) (lsKeyFor key) = Some lsValue.
Proof.
  revert ls. induction l as [|e l IH]; intros ls Hnodup Hin Hsecret Hstr.
  - by apply elem_of_nil in Hin.
  - cbn in *. apply NoDup_cons in Hnodup as [Hfresh Hnodup].
    apply elem_of_cons in Hin as [<- | Hin]; [| by apply IH].
    rewrite backup_fold_other.
    + unfold backupEntry, _writeKeyToLocalStorage. cbn.
      rewrite Hsecret, Hstr. apply getItem_setItem.
    + intros e' He' _ Heq%lsKeyFor_inj. apply Hfresh.
      rewrite Heq. apply list_elem_of_fmap. by exists e'.
Qed.

(** X22. [writeE2EEIdentityToLocalStorage] leaves the primary store as it
    is and mirrors every entry under the secret prefix whose value
    serialises, under its derived key; mirror entries under other keys are
    not touched.  So after it, a loss of the primary store and a restore
    give each such entry back, when its mirrored text parses back to it
    and the other mirrored texts parse too. *)
Theorem backup_mirrors_every_secret (m : Media V) :
  let backedUp := writeE2EEIdentityToLocalStorage m in
  _sessionStore backedUp = _sessionStore m
  ∧ (∀ key value lsValue,
       get m key = Some value →
       JS.startsWith SESSION_E2EE_KEY_PREFIX key = true →
       stringify value = Some lsValue →
       getItem (_localStorage backedUp) (lsKeyFor key) = Some lsValue
       ∧ (parse lsValue = Some value →
          mirrorParses (_localStorage backedUp) →
          get (tryRestoreE2EEIdentityFromLocalStorage
                 (losePrimary backedUp)).1 key = Some value))
  ∧ (∀ lsKey,
       (∀ key, is_Some (get m key) →
               JS.startsWith SESSION_E2EE_KEY_PREFIX key = true →
               lsKey ≠ lsKeyFor key) →
       getItem (_localStorage backedUp) lsKey
       = getItem (_localStorage m) lsKey).
Proof.
  cbn zeta. unfold writeE2EEIdentityToLocalStorage, get.
  cbn [_sessionStore _localStorage].
  change (λ (ls : DOMStorage) (e : string * V),
            if JS.startsWith SESSION_E2EE_KEY_PREFIX e.1
            then _writeKeyToLocalStorage ls e.1 e.2 else ls)
    with backupEntry.
  split; [done |]. split.
  - intros key value lsValue Hkey Hsecret Hstr.
    assert (getItem
              (fold_left backupEntry (map_to_list (_sessionStore m))
                 (_localStorage m)) (lsKeyFor key) = Some lsValue) as Hmirror.
    { apply (backup_fold_entry _ _ key lsValue value); try done.
      - apply NoDup_fst_map_to_list.
      - by apply elem_of_map_to_list. }
    split; [done |]. intros Hparse Hparses.
    by apply (restore_recovers _ key lsValue).
  - intros lsKey Hother. apply backup_fold_other.
    intros [key value] Hin Hsecret. apply Hother; [| done].
    apply elem_of_map_to_list in Hin. by eexists.
Qed.

End WriteBackup.

(** ** The further properties at work *)

Lemma start_checks_only_when_untrusted_witness :
  @CrossSigning.start Demo.healthy Demo.trustedState
  = (CrossSigning.Returned tt, Demo.trustedState, [])
  ∧ CrossSigning.stateAfter
      (@CrossSigning.start Demo.healthy CrossSigning.initialState)
    = Demo.trustedState.
Proof.
  pose proof (@start_checks_only_when_untrusted Demo.healthy
                Demo.trustedState) as (Hnoop & _ & _).
  pose proof (@start_checks_only_when_untrusted Demo.healthy
                CrossSigning.initialState) as (_ & Hchecks & _).
  split.
  - apply Hnoop. reflexivity.
  - rewrite (proj2 (Hchecks eq_refl)). vm_compute. reflexivity.
Defined.

(** Trust established by [load] outlives the secrets: after a second
    [load] with the secrets gone the master key is still trusted, and the
    matching key is the one of the first step. *)
Lemma trust_only_from_matching_key_witness :
  CrossSigning._isMasterKeyTrusted Fixtures.loadedThenLost = true
  ∧ ∃ env, env ∈ [Fixtures.secretsLost; Demo.healthy]
           ∧ @Derived.masterKeyMatches env.
Proof.
  split; [vm_compute; reflexivity |].
  apply (@trust_only_from_matching_key [Fixtures.secretsLost; Demo.healthy]
           Fixtures.loadedThenLost).
  - apply (Derived.under_step Fixtures.secretsLost [Demo.healthy]
             Fixtures.loaded).
    + apply (Derived.under_step Demo.healthy [] CrossSigning.initialState).
      * apply Derived.under_init.
      * apply (@CrossSigning.step_load Demo.healthy).
    + apply (@CrossSigning.step_load Fixtures.secretsLost).
  - vm_compute. reflexivity.
Defined.

Lemma session_in_progress_is_latest_witness :
  Derived.latestInProgress Demo.afterT1.
Proof.
  apply (@session_in_progress_is_latest Demo.healthy Demo.afterT1).
  apply (CrossSigning.reachable_step Demo.duringT1).
  - apply (CrossSigning.reachable_step CrossSigning.initialState).
    + constructor.
    + apply (@CrossSigning.step_message Demo.healthy Demo.startT1).
  - apply (@CrossSigning.step_finish Demo.healthy 0).
Defined.

Lemma lowestDeviceVerification_order_irrelevant_witness :
  @CrossSigning.lowestDeviceVerification Demo.healthy Demo.aliceSSK
    [Demo.deviceUnsigned "A1"; Demo.deviceForged "A2"]
  = @CrossSigning.lowestDeviceVerification Demo.healthy Demo.aliceSSK
      [Demo.deviceForged "A2"; Demo.deviceUnsigned "A1"].
Proof.
  apply (@lowestDeviceVerification_order_irrelevant Demo.healthy).
  apply perm_swap.
Defined.

Lemma unusable_signing_key_signs_nothing_witness :
  CrossSigning.result
    (@CrossSigning.getUserTrust Fixtures.unusableUSK Demo.alice
       Demo.trustedState)
  = CrossSigning.Returned CrossSigning.UserNotSigned
  ∧ CrossSigning.result
      (@CrossSigning.getUserTrust Fixtures.unusableSSK Demo.alice
         Demo.trustedState)
    = CrossSigning.Returned CrossSigning.UserDeviceNotSigned.
Proof.
  split.
  - refine (proj1 (@unusable_signing_key_signs_nothing Fixtures.unusableUSK
                     Demo.trustedState Demo.alice Fixtures.myUSKUnusable _) _).
    + split; [reflexivity |]. exists Demo.myMSK. vm_compute. auto.
    + vm_compute. discriminate.
  - refine (proj2 (@unusable_signing_key_signs_nothing Fixtures.unusableSSK
                     Demo.trustedState Demo.alice Demo.myUSK _)
              Fixtures.aliceSSKUnusable _ _ _).
    + split; [reflexivity |]. exists Demo.myMSK. vm_compute. auto.
    + exists Demo.aliceMSK. vm_compute. auto.
    + vm_compute. discriminate.
    + vm_compute. discriminate.
Defined.

Lemma signUser_files_unusable_key_under_undefined_witness :
  ∃ o, CrossSigning.UploadSignatures
         (Derived.payloadOf Demo.alice "undefined" o)
       ∈ CrossSigning.effects
           (@CrossSigning.signUser Fixtures.unusableSubjectMSK Demo.alice
              Demo.trustedState).
Proof.
  destruct (@signUser_files_unusable_key_under_undefined
              Fixtures.unusableSubjectMSK Demo.alice Demo.trustedState
              Fixtures.aliceMSKUnusable)
    as (o & _ & Hupload).
  - reflexivity.
  - vm_compute. discriminate.
  - vm_compute. reflexivity.
  - vm_compute. discriminate.
  - vm_compute. by eexists.
  - exists o. exact Hupload.
Defined.

Ltac mirror_parses :=
  let lsKey := fresh "lsKey" in
  let raw := fresh "raw" in
  let Hin := fresh "Hin" in
  let Hp := fresh "Hp" in
  intros lsKey raw Hin Hp; vm_compute in Hin;
  repeat (apply elem_of_cons in Hin as [Hin | Hin];
          [injection Hin as -> ->;
           first [vm_compute in Hp; discriminate Hp
                 | eexists; vm_compute; reflexivity] |]);
  exact (False_ind _ (proj1 (elem_of_nil _) Hin)).

Lemma set_writes_primary_and_mirror_witness :
  SessionStore.getItem
    (SessionStore._localStorage
       (@SessionStore.set string Demo.host Demo.emptyMedia "e2ee:K" "v"))
    (@SessionStore.lsKeyFor string Demo.host "e2ee:K") = Some "v"%string
  ∧ SessionStore._localStorage
      (@SessionStore.set string Demo.host Demo.emptyMedia "sync" "t")
    = SessionStore._localStorage Demo.emptyMedia.
Proof.
  pose proof (@set_writes_primary_and_mirror string Demo.host Demo.emptyMedia
                "e2ee:K" "v") as (_ & _ & _ & Hmirror & _).
  pose proof (@set_writes_primary_and_mirror string Demo.host Demo.emptyMedia
                "sync" "t") as (_ & _ & Hplain & _).
  split.
  - apply (Hmirror "v"%string); reflexivity.
  - apply Hplain. left. reflexivity.
Defined.

Lemma secret_survives_loss_of_primary_witness :
  SessionStore.get
    (@SessionStore.tryRestoreE2EEIdentityFromLocalStorage string Demo.host
       (StoreEvents.losePrimary
          (@SessionStore.set string Demo.host Demo.emptyMedia "e2ee:K" "v"))).1
    "e2ee:K" = Some "v"%string
  ∧ SessionStore.get
      (@SessionStore.tryRestoreE2EEIdentityFromLocalStorage string Demo.host
         (StoreEvents.losePrimary
            (@SessionStore.set string Demo.host Demo.emptyMedia "sync" "t"))).1
      "sync" = None.
Proof.
  split.
  - apply (proj1 (@secret_survives_loss_of_primary string Demo.host
                    Demo.emptyMedia "e2ee:K" "v" "v")).
    + reflexivity.
    + reflexivity.
    + reflexivity.
    + mirror_parses.
  - apply (proj2 (@secret_survives_loss_of_primary string Demo.host
                    Demo.emptyMedia "sync" "t" "t")).
    reflexivity.
Defined.

Lemma restore_is_idempotent_witness :
  @SessionStore.tryRestoreE2EEIdentityFromLocalStorage string Demo.host
    (@SessionStore.tryRestoreE2EEIdentityFromLocalStorage string Demo.host
       Demo.seededMedia).1
  = ((@SessionStore.tryRestoreE2EEIdentityFromLocalStorage string Demo.host
        Demo.seededMedia).1, Some false).
Proof.
  apply (@restore_is_idempotent string Demo.host Demo.seededMedia true).
  vm_compute. reflexivity.
Defined.

Lemma removed_secret_returns_on_restore_witness :
  SessionStore.get
    (@SessionStore.remove string Demo.host
       (@SessionStore.set string Demo.host Demo.emptyMedia "e2ee:K" "v")
       "e2ee:K") "e2ee:K" = None
  ∧ SessionStore.get
      (@SessionStore.tryRestoreE2EEIdentityFromLocalStorage string Demo.host
         (@SessionStore.remove string Demo.host
            (@SessionStore.set string Demo.host Demo.emptyMedia "e2ee:K" "v")
            "e2ee:K")).1 "e2ee:K" = Some "v"%string.
Proof.
  destruct (@removed_secret_returns_on_restore string Demo.host Demo.emptyMedia
              "e2ee:K" "v" "v") as (Hgone & _ & Hback).
  - reflexivity.
  - reflexivity.
  - reflexivity.
  - mirror_parses.
  - split; [exact Hgone | exact Hback].
Defined.

Lemma backup_mirrors_every_secret_witness :
  SessionStore.getItem
    (SessionStore._localStorage
       (@SessionStore.writeE2EEIdentityToLocalStorage string Demo.host
          Fixtures.identityMedia))
    (@SessionStore.lsKeyFor string Demo.host "e2ee:K") = Some "v"%string
  ∧ SessionStore.get
      (@SessionStore.tryRestoreE2EEIdentityFromLocalStorage string Demo.host
         (StoreEvents.losePrimary
            (@SessionStore.writeE2EEIdentityToLocalStorage string Demo.host
               Fixtures.identityMedia))).1 "e2ee:K" = Some "v"%string.
Proof.
  destruct (proj1 (proj2 (@backup_mirrors_every_secret string Demo.host
                            Fixtures.identityMedia))
              "e2ee:K"%string "v"%string "v"%string) as [Hmirror Hback].
  - vm_compute. reflexivity.
  - reflexivity.
  - reflexivity.
  - split; [exact Hmirror |]. apply Hback; [reflexivity |].
    mirror_parses.
Defined.
